(** * Alert-Aid risk-prediction engine: a shallow embedding and its properties

    The development embeds the scoring code of
    [backend/routes/predict.py] (hazard scorers, prediction assembler,
    the two aggregate endpoints, the confidence estimator) and of
    [api/predict.py] (the rule-based calculator) and proves the
    properties stated for them.

    Conventions of the embedding:
    - a Python [float] is an exact rational ([Q]); decimal literals are
      the rationals they denote, so binary rounding error is not
      modelled;
    - [round(x, n)] is rounding to [n] decimals, ties to even;
    - [random.uniform] and [datetime.now().month] read a [World] that is
      threaded through the code by a small state monad;
    - a response dictionary is a record holding the fields computed from
      the readings (timestamps and echoed coordinates are left out). *)

From Stdlib Require Import QArith Qround Qminmax Qabs ZArith Lia Lqa List String Bool.
Import ListNotations.
Open Scope string_scope.
Open Scope list_scope.
Open Scope Q_scope.

(** ** Python numerics *)

Module PyNum.

(** [x < y] and [x <= y] as Python evaluates them on numbers. *)
Definition Qltb (x y : Q) : bool := negb (Qle_bool y x).
Definition Qleb (x y : Q) : bool := Qle_bool x y.

(** Nearest integer, ties to the even neighbour. *)
Definition round_half_even (x : Q) : Z :=
  let f := Qfloor x in
  match Qcompare (x - inject_Z f) (1 # 2) with
  | Lt => f
  | Gt => (f + 1)%Z
  | Eq => if Z.even f then f else (f + 1)%Z
  end.

(** [round(x, ndigits)]. *)
Definition round (x : Q) (ndigits : nat) : Q :=
  let s := inject_Z (10 ^ Z.of_nat ndigits) in
  inject_Z (round_half_even (x * s)) / s.

(** [max(it)] over a non-empty sequence keeps the first maximal item;
    the empty case (a [ValueError] in Python) is not reached by the
    callers, which test the list first. *)
Definition max_of (l : list Q) : Q :=
  match l with
  | [] => 0
  | x :: tl => fold_left Qmax tl x
  end.

(** [sum(it)]. *)
Definition sum_of (l : list Q) : Q := fold_left Qplus l 0.

(** [len(l)] as a number. *)
Definition len {A : Type} (l : list A) : Q := inject_Z (Z.of_nat (List.length l)).

(** [m in months]. *)
Definition Zmem (m : Z) (l : list Z) : bool := existsb (Z.eqb m) l.

End PyNum.
Import PyNum.

Notation "x <? y" := (Qltb x y) : Q_scope.
Notation "x <=? y" := (Qleb x y) : Q_scope.

(** ** The world read by the engine: wall clock and random source *)

Record World := mkWorld {
  clock_month : Z;          (* datetime.now().month *)
  rng : nat -> Q            (* successive results of random.random() *)
}.

Definition M (A : Type) : Type := World -> A * World.

Definition ret {A : Type} (a : A) : M A := fun w => (a, w).

Definition bind {A B : Type} (c : M A) (k : A -> M B) : M B :=
  fun w => let (a, w') := c w in k a w'.

Notation "x <- c ;; k" := (bind c (fun x => k))
  (at level 61, c at next level, right associativity).

Definition run {A : Type} (c : M A) (w : World) : A := fst (c w).

(** [datetime.now().month] *)
Definition now_month : M Z := fun w => (clock_month w, w).

(** The world once one draw has been consumed. *)
Definition advance (w : World) : World :=
  mkWorld (clock_month w) (fun n => rng w (S n)).

(** [random.random()]: the next draw of the source. *)
Definition random_random : M Q :=
  fun w => (rng w 0%nat, advance w).

(** [random.uniform(a, b)] is [a + (b - a) * random()]. *)
Definition random_uniform (a b : Q) : M Q :=
  u <- random_random ;; ret (a + (b - a) * u).

(** The random source yields numbers of the unit interval. *)
Definition unit_draws (w : World) : Prop :=
  forall n, 0 <= rng w n <= 1.

(** ** Hazard scorers ([backend/routes/predict.py]) *)

Definition _calculate_wildfire_risk (temp humidity wind lat : Q) : M Q :=
  let temp_factor := Qmax 0 ((temp - 20) / 30) in
  let humidity_factor := Qmax 0 ((70 - humidity) / 70) in
  let wind_factor := Qmin 1 (wind / 25) in
  let lat_factor :=
    if (30 <=? Qabs lat) && (Qabs lat <=? 50) then 1.3
    else if Qabs lat <? 10 then 0.7
    else 1.0 in
  month <- now_month ;;
  let seasonal_factor :=
    if Zmem month [6; 7; 8; 9]%Z then 1.4
    else if Zmem month [12; 1; 2]%Z then 0.6
    else 1.0 in
  let base_risk := temp_factor * 0.3 + humidity_factor * 0.4 + wind_factor * 0.3 in
  let final_risk := base_risk * lat_factor * seasonal_factor in
  jitter <- random_uniform (-0.1) 0.1 ;;
  let final_risk := final_risk + jitter in
  ret (Qmax 0 (Qmin 1 final_risk)).

Definition _calculate_flood_risk (humidity pressure temp lat : Q) : M Q :=
  let humidity_factor := Qmin 1 ((humidity - 50) / 40) in
  let pressure_factor := Qmax 0 ((1020 - pressure) / 20) in
  let temp_factor := if (5 <=? temp) && (temp <=? 35) then 0.3 else 0.1 in
  let coastal_factor := if Qabs lat <? 45 then 1.2 else 1.0 in
  month <- now_month ;;
  let seasonal_factor := if Zmem month [5; 6; 7; 8; 9; 10]%Z then 1.3 else 0.8 in
  let base_risk := humidity_factor * 0.4 + pressure_factor * 0.4 + temp_factor * 0.2 in
  let final_risk := base_risk * coastal_factor * seasonal_factor in
  jitter <- random_uniform (-0.08) 0.08 ;;
  let final_risk := final_risk + jitter in
  ret (Qmax 0 (Qmin 1 final_risk)).

Definition _calculate_storm_risk (wind pressure humidity temp : Q) : M Q :=
  let wind_factor := Qmin 1 (wind / 30) in
  let pressure_factor := Qmax 0 ((1020 - pressure) / 25) in
  let humidity_factor := Qmin 1 ((humidity - 60) / 30) in
  let temp_factor := if (15 <=? temp) && (temp <=? 40) then 0.4 else 0.2 in
  let base_risk :=
    wind_factor * 0.35 + pressure_factor * 0.35 + humidity_factor * 0.2
    + temp_factor * 0.1 in
  jitter <- random_uniform (-0.1) 0.1 ;;
  let base_risk := base_risk + jitter in
  ret (Qmax 0 (Qmin 1 base_risk)).

(** One entry of the [risk_zones] table. *)
Record Zone := mkZone {
  lat_range : Q * Q;
  lon_range : Q * Q;
  risk : Q
}.

Definition risk_zones : list Zone :=
  [ mkZone (32, 42) (-125, -114) 0.4       (* California *)
  ; mkZone (35, 45) (135, 145) 0.5         (* Japan *)
  ; mkZone (-45, -35) (165, 180) 0.3       (* New Zealand *)
  ; mkZone (36, 42) (25, 35) 0.25 ].       (* Turkey/Greece *)

Definition in_zone (lat lon : Q) (zone : Zone) : bool :=
  (fst (lat_range zone) <=? lat) && (lat <=? snd (lat_range zone))
  && ((fst (lon_range zone) <=? lon) && (lon <=? snd (lon_range zone))).

(** The [for zone in risk_zones] loop, started at the global baseline. *)
Definition earthquake_base_risk (lat lon : Q) : Q :=
  fold_left
    (fun base_risk zone =>
       if in_zone lat lon zone then Qmax base_risk (risk zone) else base_risk)
    risk_zones 0.02.

Definition _calculate_earthquake_risk (lat lon : Q) : M Q :=
  let base_risk := earthquake_base_risk lat lon in
  fault_distance_factor <- random_uniform 0.7 1.3 ;;
  let final_risk := base_risk * fault_distance_factor in
  jitter <- random_uniform (-0.02) 0.02 ;;
  let final_risk := final_risk + jitter in
  ret (Qmax 0 (Qmin 1 final_risk)).

(** ** Severity, factors and recommended actions *)

Definition _get_severity_level (probability : Q) : string :=
  if 0.7 <=? probability then "critical"
  else if 0.5 <=? probability then "high"
  else if 0.3 <=? probability then "moderate"
  else if 0.1 <=? probability then "low"
  else "minimal".

(** [if not factors: factors.append(default)] *)
Definition or_default (factors : list string) (default : string) : list string :=
  match factors with
  | [] => [default]
  | _ :: _ => factors
  end.

Definition _get_wildfire_factors (temp humidity wind : Q) : list string :=
  let factors := [] in
  let factors := if 30 <? temp then factors ++ ["high_temperature"] else factors in
  let factors := if humidity <? 30 then factors ++ ["low_humidity"] else factors in
  let factors := if 15 <? wind then factors ++ ["strong_winds"] else factors in
  or_default factors "moderate_conditions".

Definition _get_flood_factors (humidity pressure temp : Q) : list string :=
  let factors := [] in
  let factors := if 80 <? humidity then factors ++ ["high_humidity"] else factors in
  let factors := if pressure <? 1005 then factors ++ ["low_pressure_system"] else factors in
  let factors := if 25 <? temp then factors ++ ["thunderstorm_conditions"] else factors in
  or_default factors "stable_conditions".

Definition _get_storm_factors (wind pressure humidity : Q) : list string :=
  let factors := [] in
  let factors := if 20 <? wind then factors ++ ["high_winds"] else factors in
  let factors := if pressure <? 1010 then factors ++ ["pressure_drop"] else factors in
  let factors := if 75 <? humidity then factors ++ ["moisture_buildup"] else factors in
  or_default factors "calm_conditions".

Definition _get_wildfire_actions (risk : Q) : list string :=
  if 0.6 <=? risk then
    ["evacuate_high_risk_areas"; "emergency_services_alert"; "fire_suppression_ready"]
  else if 0.3 <=? risk then
    ["increase_fire_watch"; "prepare_evacuation_routes"; "limit_outdoor_activities"]
  else ["monitor_conditions"; "maintain_fire_safety_measures"].

Definition _get_flood_actions (risk : Q) : list string :=
  if 0.6 <=? risk then
    ["evacuate_flood_zones"; "sandbag_operations"; "emergency_shelters_open"]
  else if 0.3 <=? risk then
    ["flood_watch_active"; "secure_loose_items"; "avoid_low_areas"]
  else ["monitor_water_levels"; "check_drainage_systems"].

Definition _get_storm_actions (risk : Q) : list string :=
  if 0.6 <=? risk then
    ["severe_weather_warning"; "seek_indoor_shelter"; "avoid_travel"]
  else if 0.3 <=? risk then
    ["weather_watch"; "secure_outdoor_items"; "monitor_updates"]
  else ["normal_weather_precautions"; "stay_informed"].

Definition _get_earthquake_actions (risk : Q) : list string :=
  if 0.4 <=? risk then
    ["earthquake_preparedness_high"; "secure_heavy_objects"; "review_evacuation_plans"]
  else if 0.2 <=? risk then
    ["earthquake_awareness"; "emergency_kit_ready"; "building_inspections"]
  else ["basic_earthquake_preparedness"; "know_safety_procedures"].

(** ** Prediction assembler *)

(** One dictionary of the predictions list. *)
Record Prediction := mkPrediction {
  type : string;
  probability : Q;
  severity : string;
  time_window : string;
  factors : list string;
  recommended_actions : list string
}.

Definition _enhanced_disaster_prediction
    (temp humidity wind pressure lat lon : Q) : M (list Prediction) :=
  let predictions := [] in
  wildfire_risk <- _calculate_wildfire_risk temp humidity wind lat ;;
  let predictions :=
    if 0.1 <? wildfire_risk then
      predictions ++
      [ mkPrediction "wildfire" (round wildfire_risk 3)
          (_get_severity_level wildfire_risk) "24-72 hours"
          (_get_wildfire_factors temp humidity wind)
          (_get_wildfire_actions wildfire_risk) ]
    else predictions in
  flood_risk <- _calculate_flood_risk humidity pressure temp lat ;;
  let predictions :=
    if 0.1 <? flood_risk then
      predictions ++
      [ mkPrediction "flood" (round flood_risk 3)
          (_get_severity_level flood_risk) "6-48 hours"
          (_get_flood_factors humidity pressure temp)
          (_get_flood_actions flood_risk) ]
    else predictions in
  storm_risk <- _calculate_storm_risk wind pressure humidity temp ;;
  let predictions :=
    if 0.15 <? storm_risk then
      predictions ++
      [ mkPrediction "severe_weather" (round storm_risk 3)
          (_get_severity_level storm_risk) "3-24 hours"
          (_get_storm_factors wind pressure humidity)
          (_get_storm_actions storm_risk) ]
    else predictions in
  earthquake_risk <- _calculate_earthquake_risk lat lon ;;
  let predictions :=
    if 0.05 <? earthquake_risk then
      predictions ++
      [ mkPrediction "earthquake" (round earthquake_risk 3)
          (_get_severity_level earthquake_risk) "geological timescale"
          ["tectonic_activity"; "geological_history"; "seismic_patterns"]
          (_get_earthquake_actions earthquake_risk) ]
    else predictions in
  let predictions :=
    match predictions with
    | [] =>
        predictions ++
        [ mkPrediction "low_risk" 0.05 "minimal" "current"
            ["stable_conditions"]
            ["maintain_normal_vigilance"; "monitor_weather_updates"] ]
    | _ :: _ => predictions
    end in
  ret predictions.

(** ** Confidence estimator *)

Definition _calculate_overall_confidence (predictions : list Prediction) : string :=
  match predictions with
  | [] => "low"
  | _ :: _ =>
      let max_prob := max_of (map probability predictions) in
      if 0.6 <=? max_prob then "high"
      else if 0.3 <=? max_prob then "medium"
      else "low"
  end.

(** ** Weather readings handed to the aggregate endpoints *)

(** The parts of an OpenWeatherMap answer the endpoints look at; an
    absent key is [None]. *)
Record WeatherMain := mkWeatherMain {
  main_temp : option Q;
  main_humidity : option Q;
  main_pressure : option Q
}.

Record WeatherData := mkWeatherData {
  wd_main : option WeatherMain;
  wd_wind_speed : option (option Q);   (* "wind" present, then "speed" present *)
  wd_visibility : option Q
}.

(** [d.get(key, default)] *)
Definition dict_get {A : Type} (o : option A) (default : A) : A :=
  match o with
  | Some a => a
  | None => default
  end.

Definition empty_main : WeatherMain := mkWeatherMain None None None.

(** [next((f(p) for p in predictions if p["type"] == ty), default)] *)
Definition next_of_type (ty : string) (f : Prediction -> Q)
    (predictions : list Prediction) (default : Q) : Q :=
  match find (fun p => String.eqb (type p) ty) predictions with
  | Some p => f p
  | None => default
  end.

(** The weather block shared by both endpoints: the fetched answer when
    the request succeeded ([Some]), the fixed defaults otherwise.
    Result: temperature, humidity, wind_speed, pressure, visibility. *)
Definition read_weather (fetched : option WeatherData) : Q * Q * Q * Q * Q :=
  match fetched with
  | Some weather_data =>
      let main := dict_get (wd_main weather_data) empty_main in
      ( dict_get (main_temp main) 25.0,
        dict_get (main_humidity main) 60.0,
        dict_get (dict_get (wd_wind_speed weather_data) None) 10.0 * 3.6,
        dict_get (main_pressure main) 1013.0,
        dict_get (wd_visibility weather_data) 10000 / 1000 )
  | None => (25.0, 60.0, 10.0, 1013.0, 10.0)
  end.

(** ** POST /predict/disaster *)

Module PostDisaster.

Record Response := mkResponse {
  overall_risk : string;
  risk_score : Q;
  flood_risk : Q;
  fire_risk : Q;
  earthquake_risk : Q;
  storm_risk : Q;
  confidence : Q;
  is_real : bool
}.

(** Lines 75-94: the score computed from the predictions list. *)
Definition score (predictions : list Prediction) (humidity visibility : Q) : Q :=
  let base_risk := 1.5 in
  let risk_score :=
    match predictions with
    | _ :: _ =>
        let max_prob := max_of (map probability predictions) in
        let avg_prob := sum_of (map probability predictions) / len predictions in
        let calculated_risk := (max_prob * 0.6 + avg_prob * 0.4) * 10 in
        round (Qmax calculated_risk base_risk) 1
    | [] => base_risk
    end in
  let risk_score :=
    if 90 <? humidity then risk_score + 1.0
    else if 80 <? humidity then risk_score + 0.5
    else risk_score in
  let risk_score := if visibility <? 5 then risk_score + 0.5 else risk_score in
  round (Qmin risk_score 10.0) 1.

Definition predict_disaster_from_location
    (lat lon : Q) (fetched : option WeatherData) : M Response :=
  let '(temperature, humidity, wind_speed, pressure, visibility) :=
    read_weather fetched in
  let is_real := match fetched with Some _ => true | None => false end in
  predictions <-
    _enhanced_disaster_prediction temperature humidity wind_speed pressure lat lon ;;
  let risk_score := score predictions humidity visibility in
  let overall_risk :=
    if 7 <=? risk_score then "critical"
    else if 5 <=? risk_score then "high"
    else if 3 <=? risk_score then "moderate"
    else "low" in
  let flood_risk :=
    round (next_of_type "flood" (fun p => probability p * 10) predictions
             (Qmax 1.5 (humidity / 40))) 1 in
  let fire_risk :=
    round (next_of_type "wildfire" (fun p => probability p * 10) predictions
             (Qmax 1.0 ((100 - humidity) / 40))) 1 in
  let earthquake_risk :=
    round (next_of_type "earthquake" (fun p => probability p * 10) predictions
             2.5) 1 in
  let storm_risk :=
    round (next_of_type "severe_weather" (fun p => probability p * 10) predictions
             (Qmax 1.5 (wind_speed / 10))) 1 in
  ret (mkResponse overall_risk risk_score
         (Qmin flood_risk 10.0) (Qmin fire_risk 10.0)
         (Qmin earthquake_risk 10.0) (Qmin storm_risk 10.0)
         0.85 is_real).

End PostDisaster.

(** ** POST /predict/disaster-full *)

Module DisasterFull.

Record Response := mkResponse {
  predictions : list Prediction;
  confidence_level : string;
  model_version : string
}.

Definition predict_disaster
    (temperature humidity wind_speed pressure latitude longitude : Q) : M Response :=
  predictions <-
    _enhanced_disaster_prediction temperature humidity wind_speed pressure
      latitude longitude ;;
  ret (mkResponse predictions (_calculate_overall_confidence predictions)
         "v2.1_enhanced").

End DisasterFull.

(** ** GET /predict/disaster-risk *)

Module DisasterRisk.

Record Response := mkResponse {
  success : bool;
  overall_risk : string;
  risk_score : Q;
  flood_risk : Q;
  fire_risk : Q;
  storm_risk : Q;
  earthquake_risk : Q;
  predictions : list Prediction;
  confidence : Q;
  model_version : string
}.

(** Lines 219-249: the score computed from the predictions list. *)
Definition score (predictions : list Prediction)
    (temperature humidity visibility : Q) : Q :=
  let base_risk := 1.5 in
  match predictions with
  | _ :: _ =>
      let max_prob := max_of (map probability predictions) in
      let avg_prob := sum_of (map probability predictions) / len predictions in
      let calculated_risk := (max_prob * 0.6 + avg_prob * 0.4) * 10 in
      round (Qmax calculated_risk base_risk) 1
  | [] =>
      let risk_score := base_risk in
      let risk_score :=
        if visibility <? 2 then risk_score + 1.5
        else if visibility <? 5 then risk_score + 0.5
        else risk_score in
      let risk_score :=
        if 90 <? humidity then risk_score + 1.0
        else if 80 <? humidity then risk_score + 0.5
        else risk_score in
      let risk_score :=
        if (40 <? temperature) || (temperature <? 0) then risk_score + 1.5
        else if (35 <? temperature) || (temperature <? 5) then risk_score + 0.5
        else risk_score in
      round (Qmin risk_score 10.0) 1
  end.

Definition get_disaster_risk
    (lat lon : Q) (fetched : option WeatherData) : M Response :=
  let '(temperature, humidity, wind_speed, pressure, visibility) :=
    read_weather fetched in
  predictions <-
    _enhanced_disaster_prediction temperature humidity wind_speed pressure lat lon ;;
  let risk_score := score predictions temperature humidity visibility in
  let overall_risk :=
    if 7 <=? risk_score then "critical"
    else if 5 <=? risk_score then "high"
    else if 3 <=? risk_score then "moderate"
    else "low" in
  let flood_risk :=
    round (next_of_type "flood" (fun p => probability p * 10) predictions
             (Qmax 1.5 (humidity / 40))) 1 in
  let fire_risk :=
    round (next_of_type "wildfire" (fun p => probability p * 10) predictions
             (Qmax 1.0 ((100 - humidity) / 40))) 1 in
  let storm_risk :=
    round (next_of_type "severe_weather" (fun p => probability p * 10) predictions
             (Qmax 1.5 (wind_speed / 10))) 1 in
  quake_draw <- random_uniform 1.0 3.0 ;;
  ret (mkResponse true overall_risk risk_score
         (Qmin flood_risk 10.0) (Qmin fire_risk 10.0) (Qmin storm_risk 10.0)
         (round quake_draw 1)
         predictions 0.85 "RuleBased-v2.1").

End DisasterRisk.

(** ** The rule-based calculator of [api/predict.py] *)

Module SimpleRisk.

Record Response := mkResponse {
  overall_risk : string;
  risk_score : Q;
  flood_risk : Q;
  fire_risk : Q;
  earthquake_risk : Q;
  storm_risk : Q;
  confidence : Q
}.

(** Lines 23-56: the score before it is rounded and capped.
    Result: risk_score, storm_risk, fire_risk, flood_risk. *)
Definition tally (temp humidity wind_speed pressure : Q) : Q * Q * Q * Q :=
  let risk_score := 3.0 in
  let risk_score :=
    if (35 <? temp) || (temp <? 5) then risk_score + 2
    else if (30 <? temp) || (temp <? 10) then risk_score + 1
    else risk_score in
  let storm_risk := 2.0 in
  let '(storm_risk, risk_score) :=
    if 20 <? wind_speed then (8.0, risk_score + 2)
    else if 15 <? wind_speed then (6.0, risk_score + 1)
    else if 10 <? wind_speed then (4.0, risk_score)
    else (storm_risk, risk_score) in
  let fire_risk := 2.0 in
  let '(fire_risk, risk_score) :=
    if humidity <? 30 then (7.0, risk_score + 1.5)
    else if humidity <? 50 then (4.0, risk_score)
    else (fire_risk, risk_score) in
  let flood_risk := 2.0 in
  let '(flood_risk, risk_score) :=
    if 80 <? humidity then (6.0, risk_score + 1)
    else if 70 <? humidity then (4.0, risk_score)
    else (flood_risk, risk_score) in
  let '(risk_score, storm_risk) :=
    if pressure <? 1000 then (risk_score + 1.5, storm_risk + 2)
    else (risk_score, storm_risk) in
  (risk_score, storm_risk, fire_risk, flood_risk).

Definition calculate_risk (weather_data : WeatherData) : M Response :=
  let main := dict_get (wd_main weather_data) empty_main in
  let temp := dict_get (main_temp main) 25 in
  let humidity := dict_get (main_humidity main) 60 in
  let wind_speed := dict_get (dict_get (wd_wind_speed weather_data) None) 10 in
  let pressure := dict_get (main_pressure main) 1013 in
  let '(risk_score, storm_risk, fire_risk, flood_risk) :=
    tally temp humidity wind_speed pressure in
  let overall_risk :=
    if 8 <=? risk_score then "critical"
    else if 6 <=? risk_score then "high"
    else if 4 <=? risk_score then "moderate"
    else "low" in
  quake_draw <- random_uniform 1 3 ;;
  ret (mkResponse overall_risk
         (Qmin (round risk_score 1) 10)
         (Qmin (round flood_risk 1) 10)
         (Qmin (round fire_risk 1) 10)
         (round quake_draw 1)
         (Qmin (round storm_risk 1) 10)
         0.85).

End SimpleRisk.

(** ** GET /predict/risk-assessment/{lat}/{lon} *)

Module RiskAssessment.

(** What a route hands back: the response it returns, or the
    [HTTPException] it raises. *)
Inductive Outcome (A : Type) : Type :=
| Returned (a : A)
| HTTPException (status_code : Z).

Arguments Returned {A} a.
Arguments HTTPException {A} status_code.

(** The request model of [predict_disaster]. *)
Record PredictionInput := mkPredictionInput {
  temperature : Q;
  humidity : Q;
  wind_speed : Q;
  pressure : Q;
  latitude : Q;
  longitude : Q
}.

(** The object [predict_disaster] is called with: the validated model
    when the framework calls the route, a plain dictionary when
    [get_risk_assessment] calls it. *)
Inductive Argument : Type :=
| Model (m : PredictionInput)
| Dict (items : list (string * Q)).

(** [data.<field>]: a model has the attribute; on a dictionary the
    access raises [AttributeError] ([None]). *)
Definition attribute (data : Argument) (field : PredictionInput -> Q) : option Q :=
  match data with
  | Model m => Some (field m)
  | Dict _ => None
  end.

(** The route [predict_disaster]: any exception of the body becomes an
    [HTTPException] with status 500. *)
Definition predict_disaster (data : Argument) : M (Outcome DisasterFull.Response) :=
  match attribute data temperature, attribute data humidity,
        attribute data wind_speed, attribute data pressure,
        attribute data latitude, attribute data longitude with
  | Some temperature, Some humidity, Some wind_speed, Some pressure,
    Some latitude, Some longitude =>
      r <- DisasterFull.predict_disaster temperature humidity wind_speed pressure
             latitude longitude ;;
      ret (Returned r)
  | _, _, _, _, _, _ => ret (HTTPException 500)
  end.

Record Response := mkResponse {
  location : Q * Q;
  risk_assessment : DisasterFull.Response;
  assessment_type : string
}.

Definition get_risk_assessment (lat lon : Q) : M (Outcome Response) :=
  d_temperature <- random_uniform (-5) 8 ;;
  d_humidity <- random_uniform (-15) 25 ;;
  d_wind_speed <- random_uniform (-3) 12 ;;
  d_pressure <- random_uniform (-10) 10 ;;
  let base_conditions :=
    Dict [ ("temperature", 22 + d_temperature);
           ("humidity", 55 + d_humidity);
           ("wind_speed", 8 + d_wind_speed);
           ("pressure", 1013 + d_pressure);
           ("latitude", lat);
           ("longitude", lon) ] in
  prediction_result <- predict_disaster base_conditions ;;
  match prediction_result with
  | Returned r => ret (Returned (mkResponse (lat, lon) r "location_based"))
  | HTTPException _ => ret (HTTPException 500)
  end.

End RiskAssessment.

(** ** Vocabulary of the statements *)

(** The four probabilities the assembler computes, in the order it
    computes them and from the same world. *)
Definition hazard_risks (temp humidity wind pressure lat lon : Q)
    : M (Q * Q * Q * Q) :=
  wildfire_risk <- _calculate_wildfire_risk temp humidity wind lat ;;
  flood_risk <- _calculate_flood_risk humidity pressure temp lat ;;
  storm_risk <- _calculate_storm_risk wind pressure humidity temp ;;
  earthquake_risk <- _calculate_earthquake_risk lat lon ;;
  ret (wildfire_risk, flood_risk, storm_risk, earthquake_risk).

(** Some entry of the list has the given type. *)
Definition has_type (ty : string) (predictions : list Prediction) : bool :=
  existsb (fun p => String.eqb (type p) ty) predictions.

(** The synthetic entry, field by field. *)
Definition low_risk_entry : Prediction :=
  {| type := "low_risk";
     probability := 0.05;
     severity := "minimal";
     time_window := "current";
     factors := ["stable_conditions"];
     recommended_actions :=
       ["maintain_normal_vigilance"; "monitor_weather_updates"] |}.

(** The order of the severity labels. *)
Definition severity_rank (label : string) : nat :=
  if String.eqb label "critical" then 4
  else if String.eqb label "high" then 3
  else if String.eqb label "moderate" then 2
  else if String.eqb label "low" then 1
  else 0.

(** [label] is the category of [score] under the cut-offs
    [critical >= c], [high >= h], [moderate >= m], else [low]. *)
Definition category_of (c h m : Q) (score : Q) (label : string) : Prop :=
  (c <= score -> label = "critical") /\
  (h <= score < c -> label = "high") /\
  (m <= score < h -> label = "moderate") /\
  (score < m -> label = "low").

(** The combination of the predictions' probabilities, on the 0-10 scale. *)
Definition combined_risk (predictions : list Prediction) : Q :=
  let max_prob := max_of (map probability predictions) in
  let avg_prob := sum_of (map probability predictions) / len predictions in
  (max_prob * 0.6 + avg_prob * 0.4) * 10.

(** The humidity and visibility modifiers of the POST path. *)
Definition humidity_modifier (humidity : Q) : Q :=
  if 90 <? humidity then 1.0 else if 80 <? humidity then 0.5 else 0.

Definition visibility_modifier (visibility : Q) : Q :=
  if visibility <? 5 then 0.5 else 0.

(** A display score: ten times the probability of the first prediction
    of the given type when there is one, the fallback otherwise,
    capped at ten and rounded to one decimal. *)
Definition display_of (ty : string) (fallback : Q)
    (predictions : list Prediction) (value : Q) : Prop :=
  (forall p, find (fun p => String.eqb (type p) ty) predictions = Some p ->
             value == round (Qmin (probability p * 10) 10) 1) /\
  (has_type ty predictions = false ->
             value == round (Qmin fallback 10) 1).

(** The POST score as the specification words it: the floor 1.5 is
    applied before the factor ten. *)
Definition claimed_post_score (predictions : list Prediction)
    (humidity visibility : Q) : Q :=
  let max_prob := max_of (map probability predictions) in
  let avg_prob := sum_of (map probability predictions) / len predictions in
  let risk_score :=
    match predictions with
    | [] => 1.5
    | _ :: _ => round (Qmax 1.5 (max_prob * 0.6 + avg_prob * 0.4) * 10) 1
    end in
  round (Qmin (risk_score + humidity_modifier humidity
               + visibility_modifier visibility) 10) 1.

(** The earthquake display score as the specification words it: ten
    times the earthquake prediction's probability when there is one, a
    fresh draw of [1, 3] otherwise, capped at ten and rounded. *)
Definition claimed_earthquake_display (predictions : list Prediction)
    (fresh_draw : Q) : Q :=
  round (Qmin (next_of_type "earthquake" (fun p => probability p * 10)
                 predictions fresh_draw) 10) 1.

(** Every probability of the list lies in the unit interval. *)
Definition unit_probabilities (predictions : list Prediction) : Prop :=
  forall p, In p predictions -> 0 <= probability p <= 1.

(** The hazard types in the order the assembler appends them. *)
Definition hazard_types : list string :=
  ["wildfire"; "flood"; "severe_weather"; "earthquake"].

(** The coordinate lies in some rectangle of the zone table. *)
Definition in_some_zone (lat lon : Q) : bool :=
  existsb (in_zone lat lon) risk_zones.

(** The tag occurs in the list. *)
Definition has_tag (tag : string) (tags : list string) : bool :=
  existsb (String.eqb tag) tags.

(** The severity and the actions of an entry agree: the entry is not
    minimal, a critical entry carries the top tier, a moderate one the
    middle tier and a low one the bottom tier. *)
Definition tiers_agree (top middle bottom : list string) (entry : Prediction) : Prop :=
  severity entry <> "minimal" /\
  (severity entry = "critical" -> recommended_actions entry = top) /\
  (severity entry = "moderate" -> recommended_actions entry = middle) /\
  (severity entry = "low" -> recommended_actions entry = bottom).

(** The number equals one of the listed values. *)
Definition among (x : Q) (values : list Q) : bool :=
  existsb (Qeq_bool x) values.

(** Readings under which no rule of the rule-based calculator raises
    the score. *)
Definition calm_readings (temp humidity wind_speed pressure : Q) : Prop :=
  (10 <= temp <= 30) /\ wind_speed <= 15 /\
  (30 <= humidity <= 80) /\ 1000 <= pressure.

(** Worlds used in the examples: January or July, every draw the same. *)
Definition constant_world (month : Z) (u : Q) : World :=
  mkWorld month (fun _ => u).

(** * Properties *)

(** ** Comparisons, clamping and rounding *)

Section Numerics.

Lemma Qltb_lt (x y : Q) : (x <? y) = true <-> x < y.
Proof.
  unfold Qltb. rewrite negb_true_iff.
  split; intro H.
  - apply Qnot_le_lt. intro Hle. apply Qle_bool_iff in Hle. congruence.
  - destruct (Qle_bool y x) eqn:E; [|reflexivity].
    apply Qle_bool_iff in E. exfalso. exact (Qlt_not_le _ _ H E).
Qed.

Lemma Qltb_ge (x y : Q) : (x <? y) = false <-> y <= x.
Proof.
  unfold Qltb. rewrite negb_false_iff. apply Qle_bool_iff.
Qed.

Lemma Qleb_le (x y : Q) : (x <=? y) = true <-> x <= y.
Proof. apply Qle_bool_iff. Qed.

Lemma Qleb_gt (x y : Q) : (x <=? y) = false <-> y < x.
Proof.
  unfold Qleb. split; intro H.
  - apply Qnot_le_lt. intro Hle. apply Qle_bool_iff in Hle. congruence.
  - destruct (Qle_bool x y) eqn:E; [|reflexivity].
    apply Qle_bool_iff in E. exfalso. exact (Qlt_not_le _ _ H E).
Qed.

(** What every scorer returns: [max(0, min(1, x))]. *)
Lemma clamp_unit (x : Q) : 0 <= Qmax 0 (Qmin 1 x) <= 1.
Proof.
  split.
  - apply Q.le_max_l.
  - apply Q.max_lub; [discriminate | apply Q.le_min_l].
Qed.

Lemma round_half_even_floor (x : Q) :
  round_half_even x = Qfloor x \/
  (round_half_even x = (Qfloor x + 1)%Z /\ inject_Z (Qfloor x) < x).
Proof.
  unfold round_half_even.
  destruct (Qcompare (x - inject_Z (Qfloor x)) (1 # 2)) eqn:E.
  - apply Qeq_alt in E.
    destruct (Z.even (Qfloor x)); [left; reflexivity | right].
    split; [reflexivity | lra].
  - left; reflexivity.
  - apply Qgt_alt in E. right. split; [reflexivity | lra].
Qed.

Lemma round_half_even_lb (k : Z) (x : Q) :
  inject_Z k <= x -> (k <= round_half_even x)%Z.
Proof.
  intro H. apply Qfloor_resp_le in H. rewrite Qfloor_Z in H.
  destruct (round_half_even_floor x) as [-> | [-> _]]; lia.
Qed.

Lemma round_half_even_ub (k : Z) (x : Q) :
  x <= inject_Z k -> (round_half_even x <= k)%Z.
Proof.
  intro H. pose proof (Qfloor_resp_le _ _ H) as Hf. rewrite Qfloor_Z in Hf.
  destruct (round_half_even_floor x) as [-> | [-> Hlt]]; [exact Hf|].
  assert (inject_Z (Qfloor x) < inject_Z k) as Hk by (eapply Qlt_le_trans; eauto).
  rewrite <- Zlt_Qlt in Hk. lia.
Qed.

Lemma round_half_even_Z (k : Z) : round_half_even (inject_Z k) = k.
Proof.
  apply Z.le_antisymm.
  - apply round_half_even_ub, Qle_refl.
  - apply round_half_even_lb, Qle_refl.
Qed.

Lemma round_half_even_comp (x y : Q) :
  x == y -> round_half_even x = round_half_even y.
Proof.
  intro H. unfold round_half_even.
  rewrite (Qfloor_comp _ _ H).
  assert (x - inject_Z (Qfloor y) == y - inject_Z (Qfloor y)) as E by (rewrite H; reflexivity).
  rewrite (Qcompare_comp _ _ E (1 # 2) (1 # 2) (Qeq_refl _)). reflexivity.
Qed.

Lemma scale_pos (n : nat) : 0 < inject_Z (10 ^ Z.of_nat n).
Proof.
  change 0 with (inject_Z 0). rewrite <- Zlt_Qlt.
  apply Z.pow_pos_nonneg; lia.
Qed.

(** Rounding never crosses an integer. *)
Lemma round_lb (k : Z) (x : Q) (n : nat) :
  inject_Z k <= x -> inject_Z k <= round x n.
Proof.
  intro H. unfold round.
  pose proof (scale_pos n) as Hs.
  set (s := inject_Z (10 ^ Z.of_nat n)) in *.
  apply Qle_shift_div_l; [exact Hs|].
  unfold s at 1. rewrite <- inject_Z_mult, <- Zle_Qle.
  apply round_half_even_lb. rewrite inject_Z_mult. fold s.
  apply Qmult_le_compat_r; [exact H | apply Qlt_le_weak, Hs].
Qed.

Lemma round_ub (k : Z) (x : Q) (n : nat) :
  x <= inject_Z k -> round x n <= inject_Z k.
Proof.
  intro H. unfold round.
  pose proof (scale_pos n) as Hs.
  set (s := inject_Z (10 ^ Z.of_nat n)) in *.
  apply Qle_shift_div_r; [exact Hs|].
  unfold s at 2. rewrite <- inject_Z_mult, <- Zle_Qle.
  apply round_half_even_ub. rewrite inject_Z_mult. fold s.
  apply Qmult_le_compat_r; [exact H | apply Qlt_le_weak, Hs].
Qed.

Lemma round_comp (x y : Q) (n : nat) : x == y -> round x n = round y n.
Proof.
  intro H. unfold round.
  set (s := inject_Z (10 ^ Z.of_nat n)).
  assert (x * s == y * s) as E by (rewrite H; reflexivity).
  rewrite (round_half_even_comp _ _ E). reflexivity.
Qed.

Lemma round_Z (k : Z) (n : nat) : round (inject_Z k) n == inject_Z k.
Proof.
  apply Qle_antisym.
  - apply round_ub, Qle_refl.
  - apply round_lb, Qle_refl.
Qed.

#[global] Instance round_Proper : Proper (Qeq ==> eq ==> Qeq) round.
Proof.
  intros x y H n ? <-. rewrite (round_comp _ _ n H). reflexivity.
Qed.

(** Capping at ten commutes with rounding. *)
Lemma cap_round (x : Q) (n : nat) :
  Qmin (round x n) 10.0 == round (Qmin x 10.0) n.
Proof.
  assert (10.0 == inject_Z 10) as -> by reflexivity.
  destruct (Qlt_le_dec (inject_Z 10) x) as [Hgt | Hle].
  - apply Qlt_le_weak in Hgt.
    rewrite (Q.min_r x) by exact Hgt.
    rewrite round_Z.
    apply Q.min_r, round_lb, Hgt.
  - rewrite (Q.min_l x) by exact Hle.
    apply Q.min_l, round_ub, Hle.
Qed.

End Numerics.

(** ** Running the assembler *)

(** Names the result and the next world of each scorer call in the goal. *)
Ltac name_scorer_runs :=
  repeat match goal with
  | |- context [_calculate_wildfire_risk ?a ?b ?c ?d ?w] =>
      let r := fresh "wildfire_risk" in
      let w' := fresh "w" in
      destruct (_calculate_wildfire_risk a b c d w) as [r w'] eqn:?
  | |- context [_calculate_flood_risk ?a ?b ?c ?d ?w] =>
      let r := fresh "flood_risk" in
      let w' := fresh "w" in
      destruct (_calculate_flood_risk a b c d w) as [r w'] eqn:?
  | |- context [_calculate_storm_risk ?a ?b ?c ?d ?w] =>
      let r := fresh "storm_risk" in
      let w' := fresh "w" in
      destruct (_calculate_storm_risk a b c d w) as [r w'] eqn:?
  | |- context [_calculate_earthquake_risk ?a ?b ?w] =>
      let r := fresh "earthquake_risk" in
      let w' := fresh "w" in
      destruct (_calculate_earthquake_risk a b w) as [r w'] eqn:?
  end.

(** Splits on the four inclusion tests of the assembler. *)
Ltac split_thresholds :=
  repeat match goal with
  | |- context [?a <? ?b] =>
      let E := fresh "T" in destruct (a <? b) eqn:E
  end.

(** The assembler's list, with the four risks named: each hazard that
    passes its test contributes one entry, in the fixed order. *)
Lemma assembler_run (temp humidity wind pressure lat lon : Q) (w : World) :
  let '(wf, fl, st, eq) := run (hazard_risks temp humidity wind pressure lat lon) w in
  let hazards :=
    (if 0.1 <? wf then
       [mkPrediction "wildfire" (round wf 3) (_get_severity_level wf) "24-72 hours"
          (_get_wildfire_factors temp humidity wind) (_get_wildfire_actions wf)]
     else [])
    ++ (if 0.1 <? fl then
       [mkPrediction "flood" (round fl 3) (_get_severity_level fl) "6-48 hours"
          (_get_flood_factors humidity pressure temp) (_get_flood_actions fl)]
     else [])
    ++ (if 0.15 <? st then
       [mkPrediction "severe_weather" (round st 3) (_get_severity_level st) "3-24 hours"
          (_get_storm_factors wind pressure humidity) (_get_storm_actions st)]
     else [])
    ++ (if 0.05 <? eq then
       [mkPrediction "earthquake" (round eq 3) (_get_severity_level eq)
          "geological timescale"
          ["tectonic_activity"; "geological_history"; "seismic_patterns"]
          (_get_earthquake_actions eq)]
     else []) in
  run (_enhanced_disaster_prediction temp humidity wind pressure lat lon) w
  = match hazards with [] => [low_risk_entry] | _ :: _ => hazards end.
Proof.
  unfold run, hazard_risks, _enhanced_disaster_prediction, bind, ret.
  name_scorer_runs. cbn [fst].
  split_thresholds; reflexivity.
Qed.

(** Unfolds the monadic plumbing only, leaving the arithmetic alone. *)
Ltac run_monad :=
  cbv beta iota zeta delta
    [run fst snd bind ret now_month random_uniform random_random
     _calculate_wildfire_risk _calculate_flood_risk _calculate_storm_risk
     _calculate_earthquake_risk].

Section Scorers.

Variables temp humidity wind pressure lat lon : Q.
Variable w : World.

Lemma wildfire_in_unit :
  0 <= run (_calculate_wildfire_risk temp humidity wind lat) w <= 1.
Proof. run_monad. apply clamp_unit. Qed.

Lemma flood_in_unit :
  0 <= run (_calculate_flood_risk humidity pressure temp lat) w <= 1.
Proof. run_monad. apply clamp_unit. Qed.

Lemma storm_in_unit :
  0 <= run (_calculate_storm_risk wind pressure humidity temp) w <= 1.
Proof. run_monad. apply clamp_unit. Qed.

Lemma earthquake_in_unit :
  0 <= run (_calculate_earthquake_risk lat lon) w <= 1.
Proof. run_monad. apply clamp_unit. Qed.

(** Each scorer consumes the draws it asks for and nothing else. *)
Lemma wildfire_world :
  snd (_calculate_wildfire_risk temp humidity wind lat w) = advance w.
Proof. reflexivity. Qed.

Lemma flood_world :
  snd (_calculate_flood_risk humidity pressure temp lat w) = advance w.
Proof. reflexivity. Qed.

Lemma storm_world :
  snd (_calculate_storm_risk wind pressure humidity temp w) = advance w.
Proof. reflexivity. Qed.

Lemma earthquake_world :
  snd (_calculate_earthquake_risk lat lon w) = advance (advance w).
Proof. reflexivity. Qed.

(** The earthquake scorer, as a formula of its two draws. *)
Lemma earthquake_run :
  run (_calculate_earthquake_risk lat lon) w
  = Qmax 0 (Qmin 1 (earthquake_base_risk lat lon * (0.7 + (1.3 - 0.7) * rng w 0%nat)
                    + (-0.02 + (0.02 - -0.02) * rng w 1%nat))).
Proof. reflexivity. Qed.

(** The four risks the assembler sees all lie in the unit interval. *)
Lemma hazard_risks_in_unit :
  let '(wf, fl, st, eq) := run (hazard_risks temp humidity wind pressure lat lon) w in
  (0 <= wf <= 1) /\ (0 <= fl <= 1) /\ (0 <= st <= 1) /\ (0 <= eq <= 1).
Proof.
  unfold run, hazard_risks, bind, ret.
  pose proof wildfire_in_unit as Hw. unfold run in Hw.
  name_scorer_runs. cbn [fst] in *.
  repeat split; try apply Hw.
  all: match goal with
       | E : _calculate_flood_risk ?a ?b ?c ?d ?v = (?r, _) |- context [?r] =>
           pose proof (f_equal fst E) as F; cbn [fst] in F; rewrite <- F;
           run_monad; apply clamp_unit
       | E : _calculate_storm_risk ?a ?b ?c ?d ?v = (?r, _) |- context [?r] =>
           pose proof (f_equal fst E) as F; cbn [fst] in F; rewrite <- F;
           run_monad; apply clamp_unit
       | E : _calculate_earthquake_risk ?a ?b ?v = (?r, _) |- context [?r] =>
           pose proof (f_equal fst E) as F; cbn [fst] in F; rewrite <- F;
           run_monad; apply clamp_unit
       end.
Qed.

End Scorers.

Lemma advance_unit_draws (w : World) : unit_draws w -> unit_draws (advance w).
Proof. intros H n. apply (H (S n)). Qed.

(** ** Severity labels *)

(** Turns the boolean tests of the context into inequalities. *)
Ltac reflect_tests :=
  repeat match goal with
  | H : (_ <? _) = true |- _ => apply Qltb_lt in H
  | H : (_ <? _) = false |- _ => apply Qltb_ge in H
  | H : (_ <=? _) = true |- _ => apply Qleb_le in H
  | H : (_ <=? _) = false |- _ => apply Qleb_gt in H
  end.

Lemma severity_cases (p : Q) :
  (0.7 <= p -> _get_severity_level p = "critical") /\
  (0.5 <= p < 0.7 -> _get_severity_level p = "high") /\
  (0.3 <= p < 0.5 -> _get_severity_level p = "moderate") /\
  (0.1 <= p < 0.3 -> _get_severity_level p = "low") /\
  (p < 0.1 -> _get_severity_level p = "minimal").
Proof.
  unfold _get_severity_level.
  destruct (0.7 <=? p) eqn:E7; destruct (0.5 <=? p) eqn:E5;
    destruct (0.3 <=? p) eqn:E3; destruct (0.1 <=? p) eqn:E1;
    reflect_tests; repeat split; intros; try reflexivity; exfalso; lra.
Qed.

Lemma severity_monotone (p q : Q) :
  p <= q ->
  (severity_rank (_get_severity_level p) <= severity_rank (_get_severity_level q))%nat.
Proof.
  intro Hpq. unfold _get_severity_level.
  destruct (0.7 <=? p) eqn:P7; destruct (0.5 <=? p) eqn:P5;
    destruct (0.3 <=? p) eqn:P3; destruct (0.1 <=? p) eqn:P1;
    destruct (0.7 <=? q) eqn:Q7; destruct (0.5 <=? q) eqn:Q5;
    destruct (0.3 <=? q) eqn:Q3; destruct (0.1 <=? q) eqn:Q1;
    cbn; try lia; reflect_tests; exfalso; lra.
Qed.

(** The severity of every hazard entry is [_get_severity_level] of that
    hazard's risk. *)
Lemma assembler_severity (temp humidity wind pressure lat lon : Q) (w : World)
    (entry : Prediction) :
  let '(wf, fl, st, eq) := run (hazard_risks temp humidity wind pressure lat lon) w in
  In entry (run (_enhanced_disaster_prediction temp humidity wind pressure lat lon) w) ->
  (type entry = "wildfire" -> severity entry = _get_severity_level wf) /\
  (type entry = "flood" -> severity entry = _get_severity_level fl) /\
  (type entry = "severe_weather" -> severity entry = _get_severity_level st) /\
  (type entry = "earthquake" -> severity entry = _get_severity_level eq).
Proof.
  pose proof (assembler_run temp humidity wind pressure lat lon w) as Hrun.
  destruct (run (hazard_risks temp humidity wind pressure lat lon) w)
    as [[[wf fl] st] eq].
  cbv zeta in Hrun. rewrite Hrun. clear Hrun.
  split_thresholds; cbn [app In]; intro Hin;
    repeat (destruct Hin as [<- | Hin]); try contradiction;
    cbn [type severity]; repeat split; intro Ht;
    first [reflexivity | discriminate Ht].
Qed.

(** C3: the severity mapping has the cut-offs 0.7 / 0.5 / 0.3 / 0.1, is
    monotone non-decreasing in the probability (0.5 gives high, 0.4999
    gives moderate), and the assembler labels all four hazards with it. *)
Theorem severity_level_shared :
  (forall p : Q,
      (0.7 <= p -> _get_severity_level p = "critical") /\
      (0.5 <= p < 0.7 -> _get_severity_level p = "high") /\
      (0.3 <= p < 0.5 -> _get_severity_level p = "moderate") /\
      (0.1 <= p < 0.3 -> _get_severity_level p = "low") /\
      (p < 0.1 -> _get_severity_level p = "minimal")) /\
  (forall p q : Q,
      p <= q ->
      (severity_rank (_get_severity_level p)
       <= severity_rank (_get_severity_level q))%nat) /\
  _get_severity_level 0.5 = "high" /\
  _get_severity_level 0.4999 = "moderate" /\
  (forall (temp humidity wind pressure lat lon : Q) (w : World) (entry : Prediction),
      let '(wf, fl, st, eq) :=
        run (hazard_risks temp humidity wind pressure lat lon) w in
      In entry
        (run (_enhanced_disaster_prediction temp humidity wind pressure lat lon) w) ->
      (type entry = "wildfire" -> severity entry = _get_severity_level wf) /\
      (type entry = "flood" -> severity entry = _get_severity_level fl) /\
      (type entry = "severe_weather" -> severity entry = _get_severity_level st) /\
      (type entry = "earthquake" -> severity entry = _get_severity_level eq)).
Proof.
  split; [exact severity_cases|].
  split; [exact severity_monotone|].
  split; [reflexivity|].
  split; [reflexivity|].
  exact assembler_severity.
Qed.

(** ** Inclusion thresholds *)

(** C1: a hazard is in the assembled list exactly when its probability
    exceeds its threshold (wildfire and flood 0.1, storm 0.15,
    earthquake 0.05); when none does, the list is the single synthetic
    low_risk entry with its literal fields, and only then. *)
Theorem assembler_inclusion
    (temp humidity wind pressure lat lon : Q) (w : World) :
  let '(wf, fl, st, eq) :=
    run (hazard_risks temp humidity wind pressure lat lon) w in
  let predictions :=
    run (_enhanced_disaster_prediction temp humidity wind pressure lat lon) w in
  (has_type "wildfire" predictions = true <-> 0.1 < wf) /\
  (has_type "flood" predictions = true <-> 0.1 < fl) /\
  (has_type "severe_weather" predictions = true <-> 0.15 < st) /\
  (has_type "earthquake" predictions = true <-> 0.05 < eq) /\
  (predictions = [low_risk_entry]
   <-> ~ 0.1 < wf /\ ~ 0.1 < fl /\ ~ 0.15 < st /\ ~ 0.05 < eq).
Proof.
  pose proof (assembler_run temp humidity wind pressure lat lon w) as Hrun.
  destruct (run (hazard_risks temp humidity wind pressure lat lon) w)
    as [[[wf fl] st] eq].
  cbv zeta in *. rewrite Hrun. clear Hrun.
  rewrite <- !Qltb_lt.
  destruct (0.1 <? wf); destruct (0.1 <? fl); destruct (0.15 <? st);
    destruct (0.05 <? eq); cbn [app has_type existsb type String.eqb
                                Ascii.eqb Bool.eqb orb];
    repeat split; try congruence; try tauto;
    try (intros (? & ? & ? & ?); congruence);
    try (intro Habs; exfalso; discriminate Habs);
    try (exfalso;
         match goal with
         | H : _ = [low_risk_entry] |- _ =>
             apply (f_equal (map type)) in H; discriminate H
         end).
Qed.

(** The synthetic entry is reachable: mild equatorial weather, January,
    every draw at the low end of its range. *)
Example low_risk_reached :
  run (_enhanced_disaster_prediction 25 50 5 1015 0 0) (constant_world 1 0)
  = [low_risk_entry].
Proof. vm_compute. reflexivity. Qed.

(** ** Earthquake base risk *)

Section ZoneLoop.

Variables lat lon : Q.

Let step (base_risk : Q) (zone : Zone) : Q :=
  if in_zone lat lon zone then Qmax base_risk (risk zone) else base_risk.

Lemma Qmax_pick (a b : Q) : Qmax a b = a \/ Qmax a b = b.
Proof.
  unfold Qmax, GenericMinMax.gmax. destruct (a ?= b); auto.
Qed.

(** The loop returns the largest of its start value and the risks of
    the zones that contain the coordinate. *)
Lemma zone_loop_max (zones : list Zone) (start : Q) :
  let r := fold_left step zones start in
  start <= r /\
  (forall zone, In zone zones -> in_zone lat lon zone = true -> risk zone <= r) /\
  (r = start \/
   exists zone, In zone zones /\ in_zone lat lon zone = true /\ r = risk zone).
Proof.
  revert start. induction zones as [|z zs IH]; intro start; cbn [fold_left].
  - split; [apply Qle_refl|]. split; [intros ? []|]. left; reflexivity.
  - destruct (IH (step start z)) as (Hlb & Hub & Hex).
    assert (start <= step start z) as Hstep.
    { unfold step. destruct (in_zone lat lon z);
        [apply Q.le_max_l | apply Qle_refl]. }
    split; [eapply Qle_trans; eauto|].
    split.
    + intros zone [<- | Hin] Hz.
      * eapply Qle_trans; [|exact Hlb].
        unfold step. rewrite Hz. apply Q.le_max_r.
      * apply Hub; assumption.
    + assert (step start z = start \/
              (in_zone lat lon z = true /\ step start z = risk z)) as Hs.
      { unfold step. destruct (in_zone lat lon z); [|left; reflexivity].
        destruct (Qmax_pick start (risk z)) as [E | E]; rewrite E; auto. }
      destruct Hex as [Hr | (zone & Hin & Hz & Hr)].
      * destruct Hs as [Hs | [Hz Hs]].
        -- left. rewrite Hr. exact Hs.
        -- right. exists z. cbn [In]. rewrite Hr. auto.
      * right. exists zone. cbn [In]. auto.
Qed.

End ZoneLoop.

(** C7: before multiplier and jitter, the earthquake risk is the floor
    0.02 raised to the largest risk among the zones whose rectangle
    contains the coordinate; it is at least 0.4 at (36, -118) and
    exactly 0.02 at (0, 0); the scorer multiplies it by the
    fault-distance draw, adds the jitter and clamps. *)
Theorem earthquake_base_risk_is_zone_maximum :
  (forall lat lon : Q,
      let base_risk := earthquake_base_risk lat lon in
      0.02 <= base_risk /\
      (forall zone, In zone risk_zones -> in_zone lat lon zone = true ->
                    risk zone <= base_risk) /\
      (base_risk = 0.02 \/
       exists zone, In zone risk_zones /\ in_zone lat lon zone = true /\
                    base_risk = risk zone)) /\
  0.4 <= earthquake_base_risk 36 (-118) /\
  earthquake_base_risk 0 0 = 0.02 /\
  (forall (lat lon : Q) (w : World),
      run (_calculate_earthquake_risk lat lon) w
      = Qmax 0 (Qmin 1 (earthquake_base_risk lat lon
                          * (0.7 + (1.3 - 0.7) * rng w 0%nat)
                        + (-0.02 + (0.02 - -0.02) * rng w 1%nat)))).
Proof.
  split.
  { intros lat lon. exact (zone_loop_max lat lon risk_zones 0.02). }
  split; [vm_compute; discriminate|].
  split; [reflexivity|].
  intros lat lon w. apply earthquake_run.
Qed.

(** ** Earthquake outside the zones *)

Lemma hazard_risks_earthquake (temp humidity wind pressure lat lon : Q) (w : World) :
  snd (run (hazard_risks temp humidity wind pressure lat lon) w)
  = run (_calculate_earthquake_risk lat lon) (advance (advance (advance w))).
Proof. reflexivity. Qed.

Lemma outside_zones_base_risk (lat lon : Q) :
  (forall zone, In zone risk_zones -> in_zone lat lon zone = false) ->
  earthquake_base_risk lat lon = 0.02.
Proof.
  intro Hout.
  destruct (zone_loop_max lat lon risk_zones 0.02) as (_ & _ & [E | (z & Hin & Hz & _)]).
  - exact E.
  - rewrite (Hout z Hin) in Hz. discriminate Hz.
Qed.

Lemma outside_zones_risk_bound (lat lon : Q) (w : World) :
  unit_draws w ->
  (forall zone, In zone risk_zones -> in_zone lat lon zone = false) ->
  run (_calculate_earthquake_risk lat lon) w <= 0.046.
Proof.
  intros Hu Hout. rewrite earthquake_run, (outside_zones_base_risk lat lon Hout).
  pose proof (Hu 0%nat) as [H0 H0']. pose proof (Hu 1%nat) as [H1 H1'].
  apply Q.max_lub; [discriminate|].
  eapply Qle_trans; [apply Q.le_min_r|]. lra.
Qed.

(** C10: outside all four zone rectangles the earthquake risk is at most
    0.02 * 1.3 + 0.02 = 0.046 whatever the two draws, the bound is
    attained, and earthquake is never in the assembled list. *)
Theorem earthquake_unlisted_outside_zones
    (temp humidity wind pressure lat lon : Q) (w : World) :
  unit_draws w ->
  (forall zone, In zone risk_zones -> in_zone lat lon zone = false) ->
  snd (run (hazard_risks temp humidity wind pressure lat lon) w) <= 0.046 /\
  has_type "earthquake"
    (run (_enhanced_disaster_prediction temp humidity wind pressure lat lon) w)
  = false /\
  (exists w', unit_draws w' /\
              run (_calculate_earthquake_risk lat lon) w' == 0.02 * 1.3 + 0.02).
Proof.
  intros Hu Hout.
  assert (snd (run (hazard_risks temp humidity wind pressure lat lon) w) <= 0.046)
    as Hbound.
  { rewrite hazard_risks_earthquake.
    apply outside_zones_risk_bound; [|exact Hout].
    repeat apply advance_unit_draws. exact Hu. }
  split; [exact Hbound|]. split.
  - pose proof (assembler_run temp humidity wind pressure lat lon w) as Hrun.
    destruct (run (hazard_risks temp humidity wind pressure lat lon) w)
      as [[[wf fl] st] eq].
    cbv zeta in Hrun. rewrite Hrun. clear Hrun. cbn [snd] in Hbound.
    assert ((0.05 <? eq) = false) as -> by (apply Qltb_ge; lra).
    destruct (0.1 <? wf); destruct (0.1 <? fl); destruct (0.15 <? st);
      reflexivity.
  - exists (constant_world 1 1). split.
    + intros n. cbn. split; discriminate.
    + rewrite earthquake_run, (outside_zones_base_risk lat lon Hout).
      vm_compute. reflexivity.
Qed.

Lemma constant_world_unit_draws (month : Z) (u : Q) :
  0 <= u <= 1 -> unit_draws (constant_world month u).
Proof. intros H n. exact H. Qed.

Lemma origin_outside_zones :
  forall zone, In zone risk_zones -> in_zone 0 0 zone = false.
Proof.
  intros zone Hin. cbn in Hin.
  repeat (destruct Hin as [<- | Hin]; [reflexivity|]). contradiction.
Qed.

Lemma earthquake_unlisted_outside_zones_witness :
  snd (run (hazard_risks 25 50 5 1015 0 0) (constant_world 1 (1 # 2))) <= 0.046 /\
  has_type "earthquake"
    (run (_enhanced_disaster_prediction 25 50 5 1015 0 0) (constant_world 1 (1 # 2)))
  = false /\
  (exists w', unit_draws w' /\
              run (_calculate_earthquake_risk 0 0) w' == 0.02 * 1.3 + 0.02).
Proof.
  apply (earthquake_unlisted_outside_zones 25 50 5 1015 0 0
           (constant_world 1 (1 # 2))).
  - apply constant_world_unit_draws. split; discriminate.
  - exact origin_outside_zones.
Defined.

(** ** Confidence *)

Lemma fold_max_ge (c : Q) (l : list Q) (a : Q) :
  c <= fold_left Qmax l a <-> c <= a \/ exists x, In x l /\ c <= x.
Proof.
  revert a. induction l as [|y l IH]; intro a; cbn [fold_left].
  - split; [auto | intros [H | (x & [] & _)]; exact H].
  - rewrite IH, Q.max_le_iff. split.
    + intros [[H | H] | (x & Hin & H)]; [auto | right; exists y | right; exists x];
        cbn [In]; auto.
    + intros [H | (x & [<- | Hin] & H)]; [auto | auto | right; exists x; auto].
Qed.

(** [max_of] reaches a bound exactly when some item does. *)
Lemma max_of_ge (c : Q) (l : list Q) :
  l <> [] -> (c <= max_of l <-> exists x, In x l /\ c <= x).
Proof.
  destruct l as [|a l]; [congruence | intros _]. cbn [max_of].
  rewrite fold_max_ge. split.
  - intros [H | (x & Hin & H)]; [exists a | exists x]; cbn [In]; auto.
  - intros (x & [<- | Hin] & H); [auto | right; exists x; auto].
Qed.

Lemma max_prob_ge (c : Q) (predictions : list Prediction) :
  predictions <> [] ->
  (c <= max_of (map probability predictions)
   <-> exists p, In p predictions /\ c <= probability p).
Proof.
  intro Hne. rewrite max_of_ge.
  - split.
    + intros (x & Hin & H). apply in_map_iff in Hin as (p & <- & Hp). eauto.
    + intros (p & Hp & H). exists (probability p). split; [apply in_map|]; auto.
  - destruct predictions; [congruence | discriminate].
Qed.

Lemma list_eq_dec_nil {A : Type} (l : list A) : {l = []} + {l <> []}.
Proof. destruct l; [left; reflexivity | right; discriminate]. Qed.

Lemma confidence_nonempty (predictions : list Prediction) :
  predictions <> [] ->
  _calculate_overall_confidence predictions
  = if 0.6 <=? max_of (map probability predictions) then "high"
    else if 0.3 <=? max_of (map probability predictions) then "medium"
    else "low".
Proof. destruct predictions; [congruence | reflexivity]. Qed.

Lemma max_prob_lt (c : Q) (predictions : list Prediction) :
  predictions <> [] ->
  (forall p, In p predictions -> probability p < c) ->
  (c <=? max_of (map probability predictions)) = false.
Proof.
  intros Hne Hall. apply Qleb_gt. apply Qnot_le_lt. intro Hge.
  apply (max_prob_ge c predictions Hne) in Hge as (p & Hin & Hp).
  specialize (Hall p Hin). lra.
Qed.

Lemma confidence_cases (predictions : list Prediction) :
  ((exists p, In p predictions /\ 0.6 <= probability p) ->
   _calculate_overall_confidence predictions = "high") /\
  ((forall p, In p predictions -> probability p < 0.6) ->
   (exists p, In p predictions /\ 0.3 <= probability p) ->
   _calculate_overall_confidence predictions = "medium") /\
  ((forall p, In p predictions -> probability p < 0.3) ->
   _calculate_overall_confidence predictions = "low").
Proof.
  destruct (list_eq_dec_nil predictions) as [-> | Hne].
  - repeat split.
    + intros (p & [] & _).
    + intros _ (p & [] & _).
  - rewrite (confidence_nonempty predictions Hne). repeat split.
    + intro Hex. apply (max_prob_ge 0.6 predictions Hne) in Hex.
      apply Qleb_le in Hex. rewrite Hex. reflexivity.
    + intros Hall Hex. rewrite (max_prob_lt 0.6 predictions Hne Hall).
      apply (max_prob_ge 0.3 predictions Hne) in Hex.
      apply Qleb_le in Hex. rewrite Hex. reflexivity.
    + intro Hall. rewrite (max_prob_lt 0.3 predictions Hne Hall).
      rewrite (max_prob_lt 0.6 predictions Hne); [reflexivity|].
      intros p Hin. specialize (Hall p Hin). lra.
Qed.

(** ** Running the endpoints *)

Lemma assembler_world (temp humidity wind pressure lat lon : Q) (w : World) :
  snd (_enhanced_disaster_prediction temp humidity wind pressure lat lon w)
  = advance (advance (advance (advance (advance w)))).
Proof. reflexivity. Qed.

(** The POST response in terms of the assembled list. *)
Lemma post_run (lat lon : Q) (fetched : option WeatherData) (w : World) :
  let '(temperature, humidity, wind_speed, pressure, visibility) :=
    read_weather fetched in
  let predictions :=
    run (_enhanced_disaster_prediction temperature humidity wind_speed pressure
           lat lon) w in
  let risk_score := PostDisaster.score predictions humidity visibility in
  let tenfold := fun p => probability p * 10 in
  run (PostDisaster.predict_disaster_from_location lat lon fetched) w
  = PostDisaster.mkResponse
      (if 7 <=? risk_score then "critical"
       else if 5 <=? risk_score then "high"
       else if 3 <=? risk_score then "moderate"
       else "low")
      risk_score
      (Qmin (round (next_of_type "flood" tenfold predictions
                      (Qmax 1.5 (humidity / 40))) 1) 10.0)
      (Qmin (round (next_of_type "wildfire" tenfold predictions
                      (Qmax 1.0 ((100 - humidity) / 40))) 1) 10.0)
      (Qmin (round (next_of_type "earthquake" tenfold predictions 2.5) 1) 10.0)
      (Qmin (round (next_of_type "severe_weather" tenfold predictions
                      (Qmax 1.5 (wind_speed / 10))) 1) 10.0)
      0.85
      (match fetched with Some _ => true | None => false end).
Proof.
  unfold PostDisaster.predict_disaster_from_location.
  destruct (read_weather fetched) as [[[[temperature humidity] wind_speed] pressure] visibility].
  unfold run, bind, ret.
  destruct (_enhanced_disaster_prediction temperature humidity wind_speed pressure
              lat lon w) as [predictions w'].
  reflexivity.
Qed.

(** The GET response in terms of the assembled list and the sixth draw. *)
Lemma get_run (lat lon : Q) (fetched : option WeatherData) (w : World) :
  let '(temperature, humidity, wind_speed, pressure, visibility) :=
    read_weather fetched in
  let predictions :=
    run (_enhanced_disaster_prediction temperature humidity wind_speed pressure
           lat lon) w in
  let risk_score := DisasterRisk.score predictions temperature humidity visibility in
  let tenfold := fun p => probability p * 10 in
  run (DisasterRisk.get_disaster_risk lat lon fetched) w
  = DisasterRisk.mkResponse true
      (if 7 <=? risk_score then "critical"
       else if 5 <=? risk_score then "high"
       else if 3 <=? risk_score then "moderate"
       else "low")
      risk_score
      (Qmin (round (next_of_type "flood" tenfold predictions
                      (Qmax 1.5 (humidity / 40))) 1) 10.0)
      (Qmin (round (next_of_type "wildfire" tenfold predictions
                      (Qmax 1.0 ((100 - humidity) / 40))) 1) 10.0)
      (Qmin (round (next_of_type "severe_weather" tenfold predictions
                      (Qmax 1.5 (wind_speed / 10))) 1) 10.0)
      (round (1.0 + (3.0 - 1.0) * rng w 5%nat) 1)
      predictions 0.85 "RuleBased-v2.1".
Proof.
  unfold DisasterRisk.get_disaster_risk.
  destruct (read_weather fetched) as [[[[temperature humidity] wind_speed] pressure] visibility].
  unfold run, bind, ret.
  pose proof (assembler_world temperature humidity wind_speed pressure lat lon w) as Hw.
  destruct (_enhanced_disaster_prediction temperature humidity wind_speed pressure
              lat lon w) as [predictions w'].
  cbn [snd] in Hw. subst w'. reflexivity.
Qed.

(** C8: the confidence label is high when some probability reaches 0.6,
    medium when none does but some reaches 0.3, low otherwise and for
    the empty list; it is what POST /predict/disaster-full reports for
    the assembled list, while both aggregate endpoints report the
    constant 0.85. *)
Theorem confidence_estimator :
  (forall predictions : list Prediction,
      ((exists p, In p predictions /\ 0.6 <= probability p) ->
       _calculate_overall_confidence predictions = "high") /\
      ((forall p, In p predictions -> probability p < 0.6) ->
       (exists p, In p predictions /\ 0.3 <= probability p) ->
       _calculate_overall_confidence predictions = "medium") /\
      ((forall p, In p predictions -> probability p < 0.3) ->
       _calculate_overall_confidence predictions = "low")) /\
  _calculate_overall_confidence [] = "low" /\
  (forall (temperature humidity wind_speed pressure latitude longitude : Q)
          (w : World),
      let r := run (DisasterFull.predict_disaster temperature humidity wind_speed
                      pressure latitude longitude) w in
      DisasterFull.predictions r
      = run (_enhanced_disaster_prediction temperature humidity wind_speed
               pressure latitude longitude) w /\
      DisasterFull.confidence_level r
      = _calculate_overall_confidence (DisasterFull.predictions r)) /\
  (forall (lat lon : Q) (fetched : option WeatherData) (w : World),
      PostDisaster.confidence
        (run (PostDisaster.predict_disaster_from_location lat lon fetched) w) = 0.85 /\
      DisasterRisk.confidence
        (run (DisasterRisk.get_disaster_risk lat lon fetched) w) = 0.85).
Proof.
  split; [exact confidence_cases|].
  split; [reflexivity|].
  split.
  - intros. unfold DisasterFull.predict_disaster, run, bind, ret in *.
    subst r.
    destruct (_enhanced_disaster_prediction temperature humidity wind_speed
                pressure latitude longitude w) as [predictions w'].
    split; reflexivity.
  - intros lat lon fetched w.
    pose proof (post_run lat lon fetched w) as Hp.
    pose proof (get_run lat lon fetched w) as Hg.
    destruct (read_weather fetched) as [[[[temperature humidity] wind_speed] pressure] visibility].
    cbv zeta in Hp, Hg. rewrite Hp, Hg. split; reflexivity.
Qed.

(** ** The assembled list is never empty *)

Lemma assembler_nonempty (temp humidity wind pressure lat lon : Q) (w : World) :
  run (_enhanced_disaster_prediction temp humidity wind pressure lat lon) w <> [].
Proof.
  pose proof (assembler_run temp humidity wind pressure lat lon w) as Hrun.
  destruct (run (hazard_risks temp humidity wind pressure lat lon) w)
    as [[[wf fl] st] eq].
  cbv zeta in Hrun. rewrite Hrun.
  destruct (0.1 <? wf); destruct (0.1 <? fl); destruct (0.15 <? st);
    destruct (0.05 <? eq); discriminate.
Qed.

(** On a non-empty list the GET score is the combination alone. *)
Lemma get_score_nonempty (predictions : list Prediction)
    (temperature humidity visibility : Q) :
  predictions <> [] ->
  DisasterRisk.score predictions temperature humidity visibility
  = round (Qmax (combined_risk predictions) 1.5) 1.
Proof. destruct predictions; [congruence | reflexivity]. Qed.

(** On a non-empty list the POST score is the combination, floored at
    1.5 and rounded, plus the two modifiers, capped and rounded. *)
Lemma post_score_nonempty (predictions : list Prediction) (humidity visibility : Q) :
  predictions <> [] ->
  PostDisaster.score predictions humidity visibility
  == round (Qmin (round (Qmax (combined_risk predictions) 1.5) 1
                  + humidity_modifier humidity
                  + visibility_modifier visibility) 10) 1.
Proof.
  intro Hne. destruct predictions as [|p ps]; [congruence|].
  unfold PostDisaster.score, humidity_modifier, visibility_modifier.
  fold (combined_risk (p :: ps)).
  apply round_Proper; [|reflexivity].
  apply Q.min_compat; [|reflexivity].
  destruct (90 <? humidity); destruct (80 <? humidity);
    destruct (visibility <? 5); ring.
Qed.

Lemma post_score_empty (humidity visibility : Q) :
  PostDisaster.score [] humidity visibility
  == round (Qmin (1.5 + humidity_modifier humidity
                  + visibility_modifier visibility) 10) 1.
Proof.
  unfold PostDisaster.score, humidity_modifier, visibility_modifier.
  apply round_Proper; [|reflexivity].
  apply Q.min_compat; [|reflexivity].
  destruct (90 <? humidity); destruct (80 <? humidity);
    destruct (visibility <? 5); ring.
Qed.

(** C9: the assembler always returns at least one entry, so both
    aggregate endpoints compute their score on the non-empty branch: the
    GET score is the rounded combination whatever visibility, humidity
    and temperature would add on the empty branch, and the POST score
    starts from the rounded combination and not from the bare 1.5. *)
Theorem empty_branch_never_taken :
  (forall (temp humidity wind pressure lat lon : Q) (w : World),
      (1 <= List.length
              (run (_enhanced_disaster_prediction temp humidity wind pressure
                      lat lon) w))%nat) /\
  (forall (lat lon : Q) (fetched : option WeatherData) (w : World),
      let '(temperature, humidity, wind_speed, pressure, visibility) :=
        read_weather fetched in
      let predictions :=
        run (_enhanced_disaster_prediction temperature humidity wind_speed
               pressure lat lon) w in
      DisasterRisk.risk_score (run (DisasterRisk.get_disaster_risk lat lon fetched) w)
      = round (Qmax (combined_risk predictions) 1.5) 1 /\
      (forall temperature' humidity' visibility' : Q,
          DisasterRisk.score predictions temperature' humidity' visibility'
          = round (Qmax (combined_risk predictions) 1.5) 1) /\
      PostDisaster.risk_score
        (run (PostDisaster.predict_disaster_from_location lat lon fetched) w)
      == round (Qmin (round (Qmax (combined_risk predictions) 1.5) 1
                      + humidity_modifier humidity
                      + visibility_modifier visibility) 10) 1).
Proof.
  split.
  - intros. pose proof (assembler_nonempty temp humidity wind pressure lat lon w) as H.
    destruct (run (_enhanced_disaster_prediction temp humidity wind pressure lat lon) w);
      [congruence | cbn; lia].
  - intros lat lon fetched w.
    pose proof (post_run lat lon fetched w) as Hp.
    pose proof (get_run lat lon fetched w) as Hg.
    destruct (read_weather fetched) as [[[[temperature humidity] wind_speed] pressure] visibility].
    cbv zeta in *. rewrite Hp, Hg.
    cbn [DisasterRisk.risk_score PostDisaster.risk_score].
    pose proof (assembler_nonempty temperature humidity wind_speed pressure lat lon w) as Hne.
    split; [apply get_score_nonempty; exact Hne|].
    split; [intros; apply get_score_nonempty; exact Hne|].
    apply post_score_nonempty; exact Hne.
Qed.

(** ** The POST score *)

(** A run of the POST endpoint on which the worded formula and the code
    part: default weather at (0, 0) in January with every draw at its
    low end. The code reports 2.0; flooring at 1.5 before the factor ten
    would always report 10. *)
Lemma post_score_not_floor_before_scaling :
  let w := constant_world 1 0 in
  let r := run (PostDisaster.predict_disaster_from_location 0 0 None) w in
  let predictions := run (_enhanced_disaster_prediction 25.0 60.0 10.0 1013.0 0 0) w in
  PostDisaster.risk_score r == 2 /\
  claimed_post_score predictions 60.0 10.0 == 10 /\
  ~ PostDisaster.risk_score r == claimed_post_score predictions 60.0 10.0.
Proof.
  cbv zeta. split; [vm_compute; reflexivity|].
  split; [vm_compute; reflexivity|].
  vm_compute. discriminate.
Qed.

(** C2 (amended): on the POST path the score is
    round(max(1.5, (max_prob*0.6 + avg_prob*0.4) * 10), 1) over the
    assembled list, plus 1.0 if humidity > 90 (else 0.5 if > 80), plus
    0.5 if visibility < 5, capped at 10 and rounded to one decimal; the
    same holds of the score function on any non-empty list, and on the
    empty list the starting value is 1.5. *)
Theorem post_risk_score_formula :
  (forall (lat lon : Q) (fetched : option WeatherData) (w : World),
      let '(temperature, humidity, wind_speed, pressure, visibility) :=
        read_weather fetched in
      let predictions :=
        run (_enhanced_disaster_prediction temperature humidity wind_speed
               pressure lat lon) w in
      PostDisaster.risk_score
        (run (PostDisaster.predict_disaster_from_location lat lon fetched) w)
      == round (Qmin (round (Qmax 1.5 (combined_risk predictions)) 1
                      + humidity_modifier humidity
                      + visibility_modifier visibility) 10) 1) /\
  (forall (p : Prediction) (ps : list Prediction) (humidity visibility : Q),
      PostDisaster.score (p :: ps) humidity visibility
      == round (Qmin (round (Qmax 1.5 (combined_risk (p :: ps))) 1
                      + humidity_modifier humidity
                      + visibility_modifier visibility) 10) 1) /\
  (forall humidity visibility : Q,
      PostDisaster.score [] humidity visibility
      == round (Qmin (1.5 + humidity_modifier humidity
                      + visibility_modifier visibility) 10) 1).
Proof.
  assert (forall l h v, l <> [] ->
            PostDisaster.score l h v
            == round (Qmin (round (Qmax 1.5 (combined_risk l)) 1
                            + humidity_modifier h + visibility_modifier v) 10) 1)
    as Hscore.
  { intros l h v Hne. rewrite (post_score_nonempty l h v Hne).
    rewrite (Q.max_comm 1.5 (combined_risk l)). reflexivity. }
  split; [|split].
  - intros lat lon fetched w.
    pose proof (post_run lat lon fetched w) as Hp.
    destruct (read_weather fetched) as [[[[temperature humidity] wind_speed] pressure] visibility].
    cbv zeta in *. rewrite Hp. cbn [PostDisaster.risk_score].
    apply Hscore, assembler_nonempty.
  - intros p ps humidity visibility. apply Hscore. discriminate.
  - exact post_score_empty.
Qed.

(** ** Overall category *)

Lemma ladder_category (c h m score : Q) :
  m <= h -> h <= c ->
  category_of c h m score
    (if c <=? score then "critical"
     else if h <=? score then "high"
     else if m <=? score then "moderate"
     else "low").
Proof.
  intros Hmh Hhc. unfold category_of.
  destruct (c <=? score) eqn:Tc; destruct (h <=? score) eqn:Th;
    destruct (m <=? score) eqn:Tm; reflect_tests;
    repeat split; intros; try reflexivity; exfalso; lra.
Qed.

Lemma category_of_comp (c h m score score' : Q) (label : string) :
  score == score' -> category_of c h m score label -> category_of c h m score' label.
Proof.
  intros E (H1 & H2 & H3 & H4). unfold category_of.
  repeat split; intros; [apply H1 | apply H2 | apply H3 | apply H4]; lra.
Qed.

(** The rule-based response in terms of the tally. *)
Lemma simple_run (weather_data : WeatherData) (w : World) :
  let main := dict_get (wd_main weather_data) empty_main in
  let '(risk_score, storm_risk, fire_risk, flood_risk) :=
    SimpleRisk.tally (dict_get (main_temp main) 25)
      (dict_get (main_humidity main) 60)
      (dict_get (dict_get (wd_wind_speed weather_data) None) 10)
      (dict_get (main_pressure main) 1013) in
  run (SimpleRisk.calculate_risk weather_data) w
  = SimpleRisk.mkResponse
      (if 8 <=? risk_score then "critical"
       else if 6 <=? risk_score then "high"
       else if 4 <=? risk_score then "moderate"
       else "low")
      (Qmin (round risk_score 1) 10)
      (Qmin (round flood_risk 1) 10)
      (Qmin (round fire_risk 1) 10)
      (round (1 + (3 - 1) * rng w 0%nat) 1)
      (Qmin (round storm_risk 1) 10)
      0.85.
Proof.
  cbv zeta. unfold SimpleRisk.calculate_risk.
  destruct (SimpleRisk.tally _ _ _ _) as [[[risk_score storm_risk] fire_risk] flood_risk].
  reflexivity.
Qed.

(** The tally is a multiple of one half between 3 and 10, so rounding
    and capping leave it as it is. *)
Lemma tally_score_reported (temp humidity wind_speed pressure : Q) :
  let '(risk_score, _, _, _) := SimpleRisk.tally temp humidity wind_speed pressure in
  Qmin (round risk_score 1) 10 == risk_score.
Proof.
  unfold SimpleRisk.tally.
  destruct (humidity <? 30) eqn:H30; destruct (80 <? humidity) eqn:H80;
    [exfalso; reflect_tests; lra | | |];
    clear H30 H80;
    repeat match goal with
           | |- context [if ?b then _ else _] => destruct b
           end;
    vm_compute; reflexivity.
Qed.

(** C5: both hazard-scorer endpoints report the category of the score
    they report under the cut-offs 7 / 5 / 3, and the rule-based
    calculator reports the category of the score it reports under the
    cut-offs 8 / 6 / 4. *)
Theorem overall_risk_matches_score :
  (forall (lat lon : Q) (fetched : option WeatherData) (w : World),
      let r := run (PostDisaster.predict_disaster_from_location lat lon fetched) w in
      category_of 7 5 3 (PostDisaster.risk_score r) (PostDisaster.overall_risk r)) /\
  (forall (lat lon : Q) (fetched : option WeatherData) (w : World),
      let r := run (DisasterRisk.get_disaster_risk lat lon fetched) w in
      category_of 7 5 3 (DisasterRisk.risk_score r) (DisasterRisk.overall_risk r)) /\
  (forall (weather_data : WeatherData) (w : World),
      let r := run (SimpleRisk.calculate_risk weather_data) w in
      category_of 8 6 4 (SimpleRisk.risk_score r) (SimpleRisk.overall_risk r)).
Proof.
  split; [|split].
  - intros lat lon fetched w.
    pose proof (post_run lat lon fetched w) as Hp.
    destruct (read_weather fetched) as [[[[temperature humidity] wind_speed] pressure] visibility].
    cbv zeta in *. rewrite Hp. cbn [PostDisaster.risk_score PostDisaster.overall_risk].
    apply ladder_category; discriminate.
  - intros lat lon fetched w.
    pose proof (get_run lat lon fetched w) as Hg.
    destruct (read_weather fetched) as [[[[temperature humidity] wind_speed] pressure] visibility].
    cbv zeta in *. rewrite Hg. cbn [DisasterRisk.risk_score DisasterRisk.overall_risk].
    apply ladder_category; discriminate.
  - intros weather_data w.
    pose proof (simple_run weather_data w) as Hs. cbv zeta in Hs.
    set (main := dict_get (wd_main weather_data) empty_main) in *.
    pose proof (tally_score_reported (dict_get (main_temp main) 25)
                  (dict_get (main_humidity main) 60)
                  (dict_get (dict_get (wd_wind_speed weather_data) None) 10)
                  (dict_get (main_pressure main) 1013)) as Ht.
    destruct (SimpleRisk.tally _ _ _ _) as [[[risk_score storm_risk] fire_risk] flood_risk].
    cbv zeta. rewrite Hs. cbn [SimpleRisk.risk_score SimpleRisk.overall_risk].
    apply (category_of_comp _ _ _ risk_score); [symmetry; exact Ht|].
    apply ladder_category; discriminate.
Qed.

(** ** Display scores *)

Lemma find_absent (ty : string) (predictions : list Prediction) :
  has_type ty predictions = false ->
  find (fun p => String.eqb (type p) ty) predictions = None.
Proof.
  unfold has_type. induction predictions as [|p ps IH]; cbn [existsb find].
  - reflexivity.
  - destruct (String.eqb (type p) ty); cbn [orb]; [discriminate | exact IH].
Qed.

(** What the endpoints compute for a display score is the first match
    times ten, or the fallback, capped and rounded. *)
Lemma display_of_next (ty : string) (fallback : Q) (predictions : list Prediction) :
  display_of ty fallback predictions
    (Qmin (round (next_of_type ty (fun p => probability p * 10)
                    predictions fallback) 1) 10.0).
Proof.
  unfold display_of, next_of_type. split.
  - intros p Hfind. rewrite Hfind. rewrite cap_round.
    apply round_Proper; [|reflexivity].
    apply Q.min_compat; reflexivity.
  - intro Habsent. rewrite (find_absent ty predictions Habsent).
    rewrite cap_round.
    apply round_Proper; [|reflexivity].
    apply Q.min_compat; reflexivity.
Qed.

(** A run of the GET endpoint on which an earthquake prediction is
    present with probability 0.5, so that ten times it is 5, while the
    endpoint reports the rounded draw, 2. *)
Lemma get_earthquake_display_ignores_prediction :
  let w := constant_world 1 (1 # 2) in
  let r := run (DisasterRisk.get_disaster_risk 40 140 None) w in
  has_type "earthquake" (DisasterRisk.predictions r) = true /\
  (forall fresh_draw : Q,
      claimed_earthquake_display (DisasterRisk.predictions r) fresh_draw == 5) /\
  DisasterRisk.earthquake_risk r == 2 /\
  ~ DisasterRisk.earthquake_risk r
    == claimed_earthquake_display (DisasterRisk.predictions r) 2.
Proof.
  cbv zeta. split; [vm_compute; reflexivity|].
  split; [intro fresh_draw; vm_compute; reflexivity|].
  split; [vm_compute; reflexivity|].
  vm_compute. discriminate.
Qed.

(** C6 (amended): in both aggregate endpoints the flood, fire and storm
    display scores are ten times the matching prediction's probability
    when one is present and otherwise max(1.5, humidity/40),
    max(1.0, (100-humidity)/40) and max(1.5, wind/10); in POST
    /predict/disaster the earthquake display score is ten times the
    earthquake prediction's probability when present and otherwise the
    constant 2.5; each is capped at ten and rounded to one decimal. *)
Theorem display_scores_from_predictions :
  forall (lat lon : Q) (fetched : option WeatherData) (w : World),
    let '(temperature, humidity, wind_speed, pressure, visibility) :=
      read_weather fetched in
    let predictions :=
      run (_enhanced_disaster_prediction temperature humidity wind_speed
             pressure lat lon) w in
    let post := run (PostDisaster.predict_disaster_from_location lat lon fetched) w in
    let get := run (DisasterRisk.get_disaster_risk lat lon fetched) w in
    display_of "flood" (Qmax 1.5 (humidity / 40)) predictions
      (PostDisaster.flood_risk post) /\
    display_of "wildfire" (Qmax 1.0 ((100 - humidity) / 40)) predictions
      (PostDisaster.fire_risk post) /\
    display_of "severe_weather" (Qmax 1.5 (wind_speed / 10)) predictions
      (PostDisaster.storm_risk post) /\
    display_of "earthquake" 2.5 predictions (PostDisaster.earthquake_risk post) /\
    DisasterRisk.predictions get = predictions /\
    display_of "flood" (Qmax 1.5 (humidity / 40)) predictions
      (DisasterRisk.flood_risk get) /\
    display_of "wildfire" (Qmax 1.0 ((100 - humidity) / 40)) predictions
      (DisasterRisk.fire_risk get) /\
    display_of "severe_weather" (Qmax 1.5 (wind_speed / 10)) predictions
      (DisasterRisk.storm_risk get).
Proof.
  intros lat lon fetched w.
  pose proof (post_run lat lon fetched w) as Hp.
  pose proof (get_run lat lon fetched w) as Hg.
  destruct (read_weather fetched) as [[[[temperature humidity] wind_speed] pressure] visibility].
  cbv zeta in *. rewrite Hp, Hg.
  cbn [PostDisaster.flood_risk PostDisaster.fire_risk PostDisaster.storm_risk
       PostDisaster.earthquake_risk DisasterRisk.predictions
       DisasterRisk.flood_risk DisasterRisk.fire_risk DisasterRisk.storm_risk].
  repeat split; try reflexivity; apply display_of_next.
Qed.

(** ** Ranges *)

Lemma round_unit (x : Q) (n : nat) : 0 <= x <= 1 -> 0 <= round x n <= 1.
Proof.
  intros [H0 H1]. split.
  - apply (round_lb 0). exact H0.
  - apply (round_ub 1). exact H1.
Qed.

(** Every probability in the assembled list lies in the unit interval. *)
Lemma assembler_probabilities (temp humidity wind pressure lat lon : Q) (w : World) :
  unit_probabilities
    (run (_enhanced_disaster_prediction temp humidity wind pressure lat lon) w).
Proof.
  pose proof (assembler_run temp humidity wind pressure lat lon w) as Hrun.
  pose proof (hazard_risks_in_unit temp humidity wind pressure lat lon w) as Hunit.
  destruct (run (hazard_risks temp humidity wind pressure lat lon) w)
    as [[[wf fl] st] eq].
  cbv zeta in Hrun. rewrite Hrun. clear Hrun.
  destruct Hunit as (Hw & Hf & Hs & He).
  intros p Hin.
  destruct (0.1 <? wf); destruct (0.1 <? fl); destruct (0.15 <? st);
    destruct (0.05 <? eq); cbn [app In] in Hin;
    repeat (destruct Hin as [<- | Hin]); try contradiction;
    cbn [probability low_risk_entry];
    first [apply round_unit; assumption | split; discriminate].
Qed.

Lemma fold_max_le (c : Q) (l : list Q) (a : Q) :
  a <= c -> (forall x, In x l -> x <= c) -> fold_left Qmax l a <= c.
Proof.
  revert a. induction l as [|y l IH]; intros a Ha Hl; cbn [fold_left].
  - exact Ha.
  - apply IH.
    + apply Q.max_lub; [exact Ha | apply Hl; left; reflexivity].
    + intros x Hx. apply Hl. right. exact Hx.
Qed.

Lemma fold_sum_bounds (l : list Q) (a : Q) :
  (forall x, In x l -> 0 <= x <= 1) ->
  a <= fold_left Qplus l a <= a + len l.
Proof.
  revert a. induction l as [|y l IH]; intros a Hl; cbn [fold_left].
  - unfold len. cbn [List.length Z.of_nat]. change (inject_Z 0) with 0.
    split; lra.
  - destruct (IH (a + y)) as [Hlo Hhi].
    { intros x Hx. apply Hl. right. exact Hx. }
    destruct (Hl y (or_introl eq_refl)) as [Hy0 Hy1].
    assert (len (y :: l) == len l + 1) as Hlen.
    { unfold len. cbn [List.length]. rewrite Nat2Z.inj_succ, <- Z.add_1_r.
      rewrite inject_Z_plus. reflexivity. }
    rewrite Hlen. split; lra.
Qed.

Lemma len_pos {A : Type} (l : list A) : l <> [] -> 0 < len l.
Proof.
  destruct l as [|a l]; [congruence | intros _].
  unfold len. change 0 with (inject_Z 0). rewrite <- Zlt_Qlt. cbn [List.length]. lia.
Qed.

(** The combination of unit probabilities lies between 0 and 10. *)
Lemma combined_risk_range (predictions : list Prediction) :
  predictions <> [] -> unit_probabilities predictions ->
  0 <= combined_risk predictions <= 10.
Proof.
  intros Hne Hunit. unfold combined_risk.
  assert (forall x, In x (map probability predictions) -> 0 <= x <= 1) as Hl.
  { intros x Hx. apply in_map_iff in Hx as (p & <- & Hp). apply Hunit, Hp. }
  assert (0 <= max_of (map probability predictions) <= 1) as [Hm0 Hm1].
  { destruct predictions as [|p ps]; [congruence|]. cbn [map max_of].
    destruct (Hunit p (or_introl eq_refl)) as [Hp0 Hp1]. split.
    - apply fold_max_ge. left. exact Hp0.
    - apply fold_max_le; [exact Hp1|].
      intros x Hx. apply Hl. right. exact Hx. }
  pose proof (len_pos predictions Hne) as Hlen.
  assert (0 <= sum_of (map probability predictions) / len predictions <= 1)
    as [Ha0 Ha1].
  { destruct (fold_sum_bounds (map probability predictions) 0 Hl) as [Hs0 Hs1].
    fold (sum_of (map probability predictions)) in Hs0, Hs1.
    assert (len (map probability predictions) == len predictions) as E.
    { unfold len. rewrite length_map. reflexivity. }
    rewrite E in Hs1. split.
    - apply Qle_shift_div_l; [exact Hlen | lra].
    - apply Qle_shift_div_r; [exact Hlen | lra]. }
  split; lra.
Qed.

Lemma modifiers_nonneg (humidity visibility : Q) :
  0 <= humidity_modifier humidity /\ 0 <= visibility_modifier visibility.
Proof.
  unfold humidity_modifier, visibility_modifier.
  destruct (90 <? humidity); destruct (80 <? humidity);
    destruct (visibility <? 5); split; discriminate.
Qed.

Lemma floored_round_range (predictions : list Prediction) :
  predictions <> [] -> unit_probabilities predictions ->
  0 <= round (Qmax (combined_risk predictions) 1.5) 1 <= 10.
Proof.
  intros Hne Hunit.
  destruct (combined_risk_range predictions Hne Hunit) as [Hc0 Hc1]. split.
  - apply (round_lb 0). eapply Qle_trans; [|apply Q.le_max_r]. discriminate.
  - apply (round_ub 10). apply Q.max_lub; [exact Hc1 | discriminate].
Qed.

Lemma post_score_range (predictions : list Prediction) (humidity visibility : Q) :
  predictions <> [] -> unit_probabilities predictions ->
  0 <= PostDisaster.score predictions humidity visibility <= 10.
Proof.
  intros Hne Hunit. rewrite (post_score_nonempty predictions humidity visibility Hne).
  destruct (floored_round_range predictions Hne Hunit) as [Hr0 _].
  destruct (modifiers_nonneg humidity visibility) as [Hh Hv]. split.
  - apply (round_lb 0). change (inject_Z 0) with 0.
    apply Q.min_glb; [lra | discriminate].
  - apply (round_ub 10). apply Q.le_min_r.
Qed.

Lemma display_range (ty : string) (fallback : Q) (predictions : list Prediction) :
  0 <= fallback -> unit_probabilities predictions ->
  0 <= Qmin (round (next_of_type ty (fun p => probability p * 10)
                      predictions fallback) 1) 10.0 <= 10.
Proof.
  intros Hf Hunit. split.
  - apply Q.min_glb; [|discriminate].
    apply (round_lb 0). unfold next_of_type.
    destruct (find _ predictions) as [p|] eqn:E; [|exact Hf].
    apply find_some in E as [Hin _]. destruct (Hunit p Hin) as [Hp _].
    change (0 <= probability p * 10). lra.
  - eapply Qle_trans; [apply Q.le_min_r | discriminate].
Qed.

Lemma uniform_range (a b u : Q) :
  a <= b -> 0 <= u <= 1 -> a <= a + (b - a) * u <= b.
Proof. intros Hab [H0 H1]. split; nra. Qed.

(** C4: for all readings, coordinates and worlds each of the four
    scorers returns a value of [0, 1] (the model has no failing path:
    every divisor is a non-zero literal), and every score of the two
    aggregate responses lies in [0, 10]; only the earthquake score of
    the GET endpoint, which is a rounded draw of [1, 3], needs the
    random source to stay within the unit interval. *)
Theorem scores_within_ranges :
  (forall (temp humidity wind pressure lat lon : Q) (w : World),
      0 <= run (_calculate_wildfire_risk temp humidity wind lat) w <= 1 /\
      0 <= run (_calculate_flood_risk humidity pressure temp lat) w <= 1 /\
      0 <= run (_calculate_storm_risk wind pressure humidity temp) w <= 1 /\
      0 <= run (_calculate_earthquake_risk lat lon) w <= 1) /\
  (forall (lat lon : Q) (fetched : option WeatherData) (w : World),
      let r := run (PostDisaster.predict_disaster_from_location lat lon fetched) w in
      0 <= PostDisaster.risk_score r <= 10 /\
      0 <= PostDisaster.flood_risk r <= 10 /\
      0 <= PostDisaster.fire_risk r <= 10 /\
      0 <= PostDisaster.storm_risk r <= 10 /\
      0 <= PostDisaster.earthquake_risk r <= 10) /\
  (forall (lat lon : Q) (fetched : option WeatherData) (w : World),
      let r := run (DisasterRisk.get_disaster_risk lat lon fetched) w in
      0 <= DisasterRisk.risk_score r <= 10 /\
      0 <= DisasterRisk.flood_risk r <= 10 /\
      0 <= DisasterRisk.fire_risk r <= 10 /\
      0 <= DisasterRisk.storm_risk r <= 10 /\
      (unit_draws w -> 0 <= DisasterRisk.earthquake_risk r <= 10)).
Proof.
  split; [|split].
  - intros.
    split; [apply wildfire_in_unit|].
    split; [apply flood_in_unit|].
    split; [apply storm_in_unit | apply earthquake_in_unit].
  - intros lat lon fetched w.
    pose proof (post_run lat lon fetched w) as Hp.
    destruct (read_weather fetched) as [[[[temperature humidity] wind_speed] pressure] visibility].
    cbv zeta in *. rewrite Hp.
    cbn [PostDisaster.risk_score PostDisaster.flood_risk PostDisaster.fire_risk
         PostDisaster.storm_risk PostDisaster.earthquake_risk].
    pose proof (assembler_nonempty temperature humidity wind_speed pressure lat lon w) as Hne.
    pose proof (assembler_probabilities temperature humidity wind_speed pressure lat lon w)
      as Hunit.
    split; [apply post_score_range; assumption|].
    split; [apply display_range;
            [eapply Qle_trans; [|apply Q.le_max_l]; discriminate | exact Hunit]|].
    split; [apply display_range;
            [eapply Qle_trans; [|apply Q.le_max_l]; discriminate | exact Hunit]|].
    split; [apply display_range;
            [eapply Qle_trans; [|apply Q.le_max_l]; discriminate | exact Hunit]|].
    apply display_range; [discriminate | exact Hunit].
  - intros lat lon fetched w.
    pose proof (get_run lat lon fetched w) as Hg.
    destruct (read_weather fetched) as [[[[temperature humidity] wind_speed] pressure] visibility].
    cbv zeta in *. rewrite Hg.
    cbn [DisasterRisk.risk_score DisasterRisk.flood_risk DisasterRisk.fire_risk
         DisasterRisk.storm_risk DisasterRisk.earthquake_risk].
    pose proof (assembler_nonempty temperature humidity wind_speed pressure lat lon w) as Hne.
    pose proof (assembler_probabilities temperature humidity wind_speed pressure lat lon w)
      as Hunit.
    split.
    { rewrite (get_score_nonempty _ _ _ _ Hne).
      apply floored_round_range; assumption. }
    split; [apply display_range;
            [eapply Qle_trans; [|apply Q.le_max_l]; discriminate | exact Hunit]|].
    split; [apply display_range;
            [eapply Qle_trans; [|apply Q.le_max_l]; discriminate | exact Hunit]|].
    split; [apply display_range;
            [eapply Qle_trans; [|apply Q.le_max_l]; discriminate | exact Hunit]|].
    intro Hu.
    destruct (uniform_range 1.0 3.0 (rng w 5%nat)) as [Hlo Hhi];
      [discriminate | apply Hu |].
    split.
    + apply (round_lb 0). change (inject_Z 0) with 0. lra.
    + apply (round_ub 10). change (inject_Z 10) with 10. lra.
Qed.

Lemma scores_within_ranges_witness :
  unit_draws (constant_world 1 (1 # 2)) /\
  0 <= DisasterRisk.earthquake_risk
         (run (DisasterRisk.get_disaster_risk 40 140 None)
            (constant_world 1 (1 # 2))) <= 10.
Proof.
  assert (unit_draws (constant_world 1 (1 # 2))) as Hu.
  { apply constant_world_unit_draws. split; discriminate. }
  split; [exact Hu|].
  destruct scores_within_ranges as (_ & _ & Hget).
  destruct (Hget 40 140 None (constant_world 1 (1 # 2))) as (_ & _ & _ & _ & Hq).
  exact (Hq Hu).
Defined.

(** ** Two end-to-end runs *)

(** Hot, dry and windy at a fire-prone latitude in July, every draw in
    the middle of its range: wildfire is listed as critical. *)
Example wildfire_scenario :
  let predictions :=
    run (_enhanced_disaster_prediction 38 20 28 1005 34 (-118))
      (constant_world 7 (1 # 2)) in
  has_type "wildfire" predictions = true /\
  map severity (filter (fun p => String.eqb (type p) "wildfire") predictions)
  = ["critical"].
Proof. cbv zeta. split; vm_compute; reflexivity. Qed.

(** Mild equatorial weather far from every zone, January, every draw in
    the middle of its range: only the flood entry passes its test. *)
Example mild_scenario :
  map type
    (run (_enhanced_disaster_prediction 25 50 5 1015 0 0) (constant_world 1 (1 # 2)))
  = ["flood"].
Proof. vm_compute. reflexivity. Qed.

(** * Further properties of the code *)

(** ** More on rounding *)

(** Replaces the inverse of a literal by its value. *)
Ltac div_consts :=
  unfold Qdiv in *;
  repeat match goal with
  | |- context [/ ?c] =>
      let v := eval vm_compute in (/ c) in change (/ c) with v
  | H : context [/ ?c] |- _ =>
      let v := eval vm_compute in (/ c) in change (/ c) with v in H
  end.

Lemma round_half_even_error (x : Q) :
  x - (1 # 2) <= inject_Z (round_half_even x) <= x + (1 # 2).
Proof.
  pose proof (Qfloor_le x) as Hlo. pose proof (Qlt_floor x) as Hhi.
  rewrite inject_Z_plus in Hhi. change (inject_Z 1) with 1 in Hhi.
  unfold round_half_even.
  destruct (Qcompare (x - inject_Z (Qfloor x)) (1 # 2)) eqn:E.
  - apply Qeq_alt in E. destruct (Z.even (Qfloor x)).
    + split; lra.
    + rewrite inject_Z_plus. change (inject_Z 1) with 1. split; lra.
  - apply Qlt_alt in E. split; lra.
  - apply Qgt_alt in E. rewrite inject_Z_plus. change (inject_Z 1) with 1.
    split; lra.
Qed.

Lemma round_half_even_mono (x y : Q) :
  x <= y -> (round_half_even x <= round_half_even y)%Z.
Proof.
  intro Hxy.
  destruct (Z_le_gt_dec (round_half_even x) (round_half_even y)) as [H | H];
    [exact H | exfalso].
  pose proof (round_half_even_error x) as [_ Hx].
  pose proof (round_half_even_error y) as [Hy _].
  assert (inject_Z (round_half_even y) + 1 <= inject_Z (round_half_even x)) as Hgap.
  { change 1 with (inject_Z 1). rewrite <- inject_Z_plus, <- Zle_Qle. lia. }
  assert (x == y) as E by lra.
  rewrite (round_half_even_comp x y E) in H. lia.
Qed.

(** Rounding preserves the order. *)
Lemma round_mono (x y : Q) (n : nat) : x <= y -> round x n <= round y n.
Proof.
  intro Hxy. unfold round.
  pose proof (scale_pos n) as Hs.
  set (s := inject_Z (10 ^ Z.of_nat n)) in *.
  apply Qmult_le_r with (z := s); [exact Hs|].
  assert (~ s == 0) as Hs0 by (intro E; rewrite E in Hs; discriminate).
  unfold Qdiv. rewrite <- !Qmult_assoc, (Qmult_comm (/ s) s), (Qmult_inv_r s Hs0).
  rewrite !Qmult_1_r, <- Zle_Qle.
  apply round_half_even_mono.
  apply Qmult_le_compat_r; [exact Hxy | apply Qlt_le_weak, Hs].
Qed.

(** A rounded number is left alone by a second rounding. *)
Lemma round_idem (x : Q) (n : nat) : round (round x n) n == round x n.
Proof.
  unfold round at 1.
  pose proof (scale_pos n) as Hs.
  set (s := inject_Z (10 ^ Z.of_nat n)) in *.
  assert (~ s == 0) as Hs0 by (intro E; rewrite E in Hs; discriminate).
  assert (round x n * s == inject_Z (round_half_even (x * s))) as E.
  { unfold round. fold s. unfold Qdiv.
    rewrite <- Qmult_assoc, (Qmult_comm (/ s) s), (Qmult_inv_r s Hs0).
    apply Qmult_1_r. }
  rewrite (round_half_even_comp _ _ E), round_half_even_Z.
  unfold round. fold s. reflexivity.
Qed.

(** Rounding to three decimals moves a number by at most 0.0005. *)
Lemma round3_error (x : Q) : x - 0.0005 <= round x 3 <= x + 0.0005.
Proof.
  unfold round.
  change (inject_Z (10 ^ Z.of_nat 3)) with 1000.
  pose proof (round_half_even_error (x * 1000)) as [Hlo Hhi].
  div_consts. split; lra.
Qed.

(** Rounding to one decimal moves a number by at most 0.05. *)
Lemma round1_error (x : Q) : x - 0.05 <= round x 1 <= x + 0.05.
Proof.
  unfold round.
  change (inject_Z (10 ^ Z.of_nat 1)) with 10.
  pose proof (round_half_even_error (x * 10)) as [Hlo Hhi].
  div_consts. split; lra.
Qed.

(** A bound that is itself rounded survives the rounding. *)
Lemma round_above (c x : Q) (n : nat) : round c n == c -> c <= x -> c <= round x n.
Proof. intros Hc Hx. rewrite <- Hc. apply round_mono, Hx. Qed.

Lemma round_below (c x : Q) (n : nat) : round c n == c -> x <= c -> round x n <= c.
Proof. intros Hc Hx. rewrite <- Hc. apply round_mono, Hx. Qed.

(** ** Contributing factors *)

Ltac decide_tags :=
  cbn [has_tag existsb String.eqb Ascii.eqb Bool.eqb orb andb app or_default
       List.length];
  repeat split; intros; try reflexivity; try congruence; try lia;
  try (exfalso; congruence).

(** X1: each factor tag is attached exactly when its test on the raw
    readings holds, the default tag exactly when none does, and the list
    has between one and three tags. *)
Theorem factor_tags_reflect_conditions :
  (forall temp humidity wind : Q,
      let tags := _get_wildfire_factors temp humidity wind in
      (has_tag "high_temperature" tags = true <-> 30 < temp) /\
      (has_tag "low_humidity" tags = true <-> humidity < 30) /\
      (has_tag "strong_winds" tags = true <-> 15 < wind) /\
      (has_tag "moderate_conditions" tags = true
       <-> temp <= 30 /\ 30 <= humidity /\ wind <= 15) /\
      (1 <= List.length tags <= 3)%nat) /\
  (forall humidity pressure temp : Q,
      let tags := _get_flood_factors humidity pressure temp in
      (has_tag "high_humidity" tags = true <-> 80 < humidity) /\
      (has_tag "low_pressure_system" tags = true <-> pressure < 1005) /\
      (has_tag "thunderstorm_conditions" tags = true <-> 25 < temp) /\
      (has_tag "stable_conditions" tags = true
       <-> humidity <= 80 /\ 1005 <= pressure /\ temp <= 25) /\
      (1 <= List.length tags <= 3)%nat) /\
  (forall wind pressure humidity : Q,
      let tags := _get_storm_factors wind pressure humidity in
      (has_tag "high_winds" tags = true <-> 20 < wind) /\
      (has_tag "pressure_drop" tags = true <-> pressure < 1010) /\
      (has_tag "moisture_buildup" tags = true <-> 75 < humidity) /\
      (has_tag "calm_conditions" tags = true
       <-> wind <= 20 /\ 1010 <= pressure /\ humidity <= 75) /\
      (1 <= List.length tags <= 3)%nat).
Proof.
  split; [|split]; intros a b c; cbv zeta.
  - unfold _get_wildfire_factors.
    rewrite <- !Qltb_lt, <- !Qltb_ge.
    destruct (30 <? a); destruct (b <? 30); destruct (15 <? c); decide_tags;
      repeat match goal with H : _ /\ _ |- _ => destruct H end; congruence.
  - unfold _get_flood_factors.
    rewrite <- !Qltb_lt, <- !Qltb_ge.
    destruct (80 <? a); destruct (b <? 1005); destruct (25 <? c); decide_tags;
      repeat match goal with H : _ /\ _ |- _ => destruct H end; congruence.
  - unfold _get_storm_factors.
    rewrite <- !Qltb_lt, <- !Qltb_ge.
    destruct (20 <? a); destruct (b <? 1010); destruct (75 <? c); decide_tags;
      repeat match goal with H : _ /\ _ |- _ => destruct H end; congruence.
Qed.

(** ** Severity and recommended actions of the listed hazards *)

Ltac split_tests :=
  repeat match goal with
  | |- context [?a <=? ?b] =>
      let E := fresh "T" in destruct (a <=? b) eqn:E
  end.

Ltac close_tier :=
  reflect_tests; repeat split; intros;
  try reflexivity; try discriminate; exfalso; lra.

Section Tiers.

Variable r : Q.
Hypothesis listed : 0.1 < r.

Lemma wildfire_tiers :
  tiers_agree
    ["evacuate_high_risk_areas"; "emergency_services_alert"; "fire_suppression_ready"]
    ["increase_fire_watch"; "prepare_evacuation_routes"; "limit_outdoor_activities"]
    ["monitor_conditions"; "maintain_fire_safety_measures"]
    (mkPrediction "wildfire" (round r 3) (_get_severity_level r) "24-72 hours"
       [] (_get_wildfire_actions r)).
Proof.
  unfold tiers_agree, _get_severity_level, _get_wildfire_actions.
  cbn [severity recommended_actions]. split_tests; close_tier.
Qed.

Lemma flood_tiers :
  tiers_agree
    ["evacuate_flood_zones"; "sandbag_operations"; "emergency_shelters_open"]
    ["flood_watch_active"; "secure_loose_items"; "avoid_low_areas"]
    ["monitor_water_levels"; "check_drainage_systems"]
    (mkPrediction "flood" (round r 3) (_get_severity_level r) "6-48 hours"
       [] (_get_flood_actions r)).
Proof.
  unfold tiers_agree, _get_severity_level, _get_flood_actions.
  cbn [severity recommended_actions]. split_tests; close_tier.
Qed.

Lemma storm_tiers :
  tiers_agree
    ["severe_weather_warning"; "seek_indoor_shelter"; "avoid_travel"]
    ["weather_watch"; "secure_outdoor_items"; "monitor_updates"]
    ["normal_weather_precautions"; "stay_informed"]
    (mkPrediction "severe_weather" (round r 3) (_get_severity_level r) "3-24 hours"
       [] (_get_storm_actions r)).
Proof.
  unfold tiers_agree, _get_severity_level, _get_storm_actions.
  cbn [severity recommended_actions]. split_tests; close_tier.
Qed.

End Tiers.

Lemma tiers_agree_factors (top middle bottom : list string)
    (ty : string) (p : Q) (sev tw : string) (fs fs' acts : list string) :
  tiers_agree top middle bottom (mkPrediction ty p sev tw fs acts) ->
  tiers_agree top middle bottom (mkPrediction ty p sev tw fs' acts).
Proof. exact (fun H => H). Qed.

(** X2: in the assembled list a wildfire, flood or storm entry is never
    labelled minimal, and its actions follow its label: critical comes
    with the top tier of its hazard, moderate with the middle tier, low
    with the bottom tier. *)
Theorem listed_actions_follow_severity
    (temp humidity wind pressure lat lon : Q) (w : World) (entry : Prediction) :
  In entry (run (_enhanced_disaster_prediction temp humidity wind pressure lat lon) w) ->
  (type entry = "wildfire" ->
   tiers_agree
     ["evacuate_high_risk_areas"; "emergency_services_alert"; "fire_suppression_ready"]
     ["increase_fire_watch"; "prepare_evacuation_routes"; "limit_outdoor_activities"]
     ["monitor_conditions"; "maintain_fire_safety_measures"] entry) /\
  (type entry = "flood" ->
   tiers_agree
     ["evacuate_flood_zones"; "sandbag_operations"; "emergency_shelters_open"]
     ["flood_watch_active"; "secure_loose_items"; "avoid_low_areas"]
     ["monitor_water_levels"; "check_drainage_systems"] entry) /\
  (type entry = "severe_weather" ->
   tiers_agree
     ["severe_weather_warning"; "seek_indoor_shelter"; "avoid_travel"]
     ["weather_watch"; "secure_outdoor_items"; "monitor_updates"]
     ["normal_weather_precautions"; "stay_informed"] entry).
Proof.
  pose proof (assembler_run temp humidity wind pressure lat lon w) as Hrun.
  destruct (run (hazard_risks temp humidity wind pressure lat lon) w)
    as [[[wf fl] st] eq].
  cbv zeta in Hrun. rewrite Hrun. clear Hrun.
  destruct (0.1 <? wf) eqn:Tw; destruct (0.1 <? fl) eqn:Tf;
    destruct (0.15 <? st) eqn:Ts; destruct (0.05 <? eq) eqn:Te;
    cbn [app In]; intro Hin;
    repeat (destruct Hin as [<- | Hin]); try contradiction;
    cbn [type]; (split; [|split]); try (intro Ht; discriminate Ht); intros _;
    reflect_tests;
    first [ eapply tiers_agree_factors, wildfire_tiers; assumption
          | eapply tiers_agree_factors, flood_tiers; assumption
          | eapply tiers_agree_factors, storm_tiers; lra ].
Qed.

Lemma listed_actions_follow_severity_witness :
  let entry :=
    mkPrediction "flood" 0.154 "low" "6-48 hours" ["stable_conditions"]
      ["monitor_water_levels"; "check_drainage_systems"] in
  tiers_agree
    ["evacuate_flood_zones"; "sandbag_operations"; "emergency_shelters_open"]
    ["flood_watch_active"; "secure_loose_items"; "avoid_low_areas"]
    ["monitor_water_levels"; "check_drainage_systems"] entry.
Proof.
  cbv zeta.
  apply (listed_actions_follow_severity 25 50 5 1015 0 0 (constant_world 1 (1 # 2))).
  - vm_compute. left. reflexivity.
  - reflexivity.
Defined.

(** ** Shape of the assembled list *)

(** X3: the types of the assembled list are either the single low_risk
    or the hazard types present, in the fixed order wildfire, flood,
    severe_weather, earthquake; no type occurs twice and there are at
    most four entries, so the first entry of a type is the only one. *)
Theorem assembled_types_ordered_once
    (temp humidity wind pressure lat lon : Q) (w : World) :
  let predictions :=
    run (_enhanced_disaster_prediction temp humidity wind pressure lat lon) w in
  (map type predictions = ["low_risk"] \/
   map type predictions
   = filter (fun ty => has_type ty predictions) hazard_types) /\
  NoDup (map type predictions) /\
  (List.length predictions <= 4)%nat /\
  (forall ty p,
      find (fun p => String.eqb (type p) ty) predictions = Some p ->
      filter (fun p => String.eqb (type p) ty) predictions = [p]).
Proof.
  pose proof (assembler_run temp humidity wind pressure lat lon w) as Hrun.
  destruct (run (hazard_risks temp humidity wind pressure lat lon) w)
    as [[[wf fl] st] eq].
  cbv zeta in *. rewrite Hrun. clear Hrun.
  destruct (0.1 <? wf); destruct (0.1 <? fl); destruct (0.15 <? st);
    destruct (0.05 <? eq); cbn [app].
  all: split; [first [left; reflexivity | right; reflexivity]|].
  all: split;
    [cbn [map type low_risk_entry];
     repeat (constructor; [cbn [In]; intuition discriminate|]); constructor|].
  all: split; [cbn [List.length]; lia|].
  all: intros ty p; cbn [find filter type low_risk_entry];
    repeat match goal with
           | |- context [String.eqb ?a ?b] => destruct (String.eqb a b) eqn:?
           end;
    intro Hf; try discriminate Hf; try (injection Hf as <-; reflexivity).
  all: repeat match goal with
              | H : String.eqb _ _ = true |- _ => apply String.eqb_eq in H
              end; congruence.
Qed.

(** ** Listed probabilities *)

Lemma listed_probability (c r : Q) :
  round c 3 == c -> c < r -> r <= 1 ->
  r - 0.0005 <= round r 3 <= r + 0.0005 /\ c <= round r 3 <= 1.
Proof.
  intros Hc Hcr Hr1. split; [apply round3_error|]. split.
  - apply (round_above c); [exact Hc | apply Qlt_le_weak, Hcr].
  - apply (round_ub 1). exact Hr1.
Qed.

(** X4: the probability shown for a listed hazard is the scorer's risk
    rounded to three decimals: it is within 0.0005 of the risk, at most
    1, and not below the hazard's inclusion threshold. *)
Theorem listed_probability_is_rounded_risk
    (temp humidity wind pressure lat lon : Q) (w : World) (entry : Prediction) :
  let '(wf, fl, st, eq) :=
    run (hazard_risks temp humidity wind pressure lat lon) w in
  In entry (run (_enhanced_disaster_prediction temp humidity wind pressure lat lon) w) ->
  (type entry = "wildfire" ->
   wf - 0.0005 <= probability entry <= wf + 0.0005 /\
   0.1 <= probability entry <= 1) /\
  (type entry = "flood" ->
   fl - 0.0005 <= probability entry <= fl + 0.0005 /\
   0.1 <= probability entry <= 1) /\
  (type entry = "severe_weather" ->
   st - 0.0005 <= probability entry <= st + 0.0005 /\
   0.15 <= probability entry <= 1) /\
  (type entry = "earthquake" ->
   eq - 0.0005 <= probability entry <= eq + 0.0005 /\
   0.05 <= probability entry <= 1).
Proof.
  pose proof (assembler_run temp humidity wind pressure lat lon w) as Hrun.
  pose proof (hazard_risks_in_unit temp humidity wind pressure lat lon w) as Hunit.
  destruct (run (hazard_risks temp humidity wind pressure lat lon) w)
    as [[[wf fl] st] eq].
  cbv zeta in Hrun. rewrite Hrun. clear Hrun.
  destruct Hunit as ((_ & Hw) & (_ & Hf) & (_ & Hs) & (_ & He)).
  destruct (0.1 <? wf) eqn:Tw; destruct (0.1 <? fl) eqn:Tf;
    destruct (0.15 <? st) eqn:Ts; destruct (0.05 <? eq) eqn:Te;
    cbn [app In]; intro Hin;
    repeat (destruct Hin as [<- | Hin]); try contradiction;
    cbn [type probability]; (split; [|split; [|split]]);
    try (intro Ht; discriminate Ht); intros _; reflect_tests;
    apply listed_probability; try assumption; vm_compute; reflexivity.
Qed.

Lemma listed_probability_is_rounded_risk_witness :
  let entry :=
    mkPrediction "flood" 0.154 "low" "6-48 hours" ["stable_conditions"]
      ["monitor_water_levels"; "check_drainage_systems"] in
  let fl := snd (fst (fst (run (hazard_risks 25 50 5 1015 0 0)
                             (constant_world 1 (1 # 2))))) in
  fl - 0.0005 <= probability entry <= fl + 0.0005 /\
  0.1 <= probability entry <= 1.
Proof.
  cbv zeta.
  pose proof (listed_probability_is_rounded_risk 25 50 5 1015 0 0
                (constant_world 1 (1 # 2))
                (mkPrediction "flood" 0.154 "low" "6-48 hours" ["stable_conditions"]
                   ["monitor_water_levels"; "check_drainage_systems"])) as H.
  destruct (run (hazard_risks 25 50 5 1015 0 0) (constant_world 1 (1 # 2)))
    as [[[wf fl] st] eq] eqn:E.
  cbn [fst snd].
  apply H.
  - vm_compute. left. reflexivity.
  - reflexivity.
Defined.

(** ** Confidence against severity *)

Lemma severity_probability (r : Q) :
  (_get_severity_level r = "critical" -> 0.7 <= round r 3) /\
  (round r 3 < 0.3 ->
   _get_severity_level r = "minimal" \/ _get_severity_level r = "low").
Proof.
  unfold _get_severity_level. split.
  - destruct (0.7 <=? r) eqn:T7.
    + intros _. reflect_tests. apply (round_above 0.7); [vm_compute; reflexivity | exact T7].
    + split_tests; intro H; discriminate H.
  - intro Hlt. destruct (0.3 <=? r) eqn:T3.
    + exfalso. reflect_tests.
      assert (0.3 <= round r 3)
        by (apply (round_above 0.3); [vm_compute; reflexivity | exact T3]).
      lra.
    + assert ((0.7 <=? r) = false) as -> by (reflect_tests; apply Qleb_gt; lra).
      assert ((0.5 <=? r) = false) as -> by (reflect_tests; apply Qleb_gt; lra).
      destruct (0.1 <=? r); auto.
Qed.

(** For every entry of the assembled list, the label and the shown
    probability are on the same side of 0.7 and of 0.3. *)
Lemma assembled_severity_probability
    (temp humidity wind pressure lat lon : Q) (w : World) (entry : Prediction) :
  In entry (run (_enhanced_disaster_prediction temp humidity wind pressure lat lon) w) ->
  (severity entry = "critical" -> 0.7 <= probability entry) /\
  (probability entry < 0.3 -> severity entry = "minimal" \/ severity entry = "low").
Proof.
  pose proof (assembler_run temp humidity wind pressure lat lon w) as Hrun.
  destruct (run (hazard_risks temp humidity wind pressure lat lon) w)
    as [[[wf fl] st] eq].
  cbv zeta in Hrun. rewrite Hrun. clear Hrun.
  destruct (0.1 <? wf); destruct (0.1 <? fl); destruct (0.15 <? st);
    destruct (0.05 <? eq); cbn [app In]; intro Hin;
    repeat (destruct Hin as [<- | Hin]); try contradiction;
    cbn [severity probability low_risk_entry];
    first [ apply severity_probability
          | split; [intro H; discriminate H | intros _; left; reflexivity] ].
Qed.

(** X5: in the answer of POST /predict/disaster-full a critical entry
    forces the confidence level high, and a confidence level low means
    that every entry is labelled minimal or low. *)
Theorem confidence_agrees_with_severity
    (temperature humidity wind_speed pressure latitude longitude : Q) (w : World) :
  let r := run (DisasterFull.predict_disaster temperature humidity wind_speed
                  pressure latitude longitude) w in
  ((exists entry, In entry (DisasterFull.predictions r) /\
                  severity entry = "critical") ->
   DisasterFull.confidence_level r = "high") /\
  (DisasterFull.confidence_level r = "low" ->
   forall entry, In entry (DisasterFull.predictions r) ->
                 severity entry = "minimal" \/ severity entry = "low").
Proof.
  cbv zeta.
  assert (run (DisasterFull.predict_disaster temperature humidity wind_speed
                 pressure latitude longitude) w
          = DisasterFull.mkResponse
              (run (_enhanced_disaster_prediction temperature humidity wind_speed
                      pressure latitude longitude) w)
              (_calculate_overall_confidence
                 (run (_enhanced_disaster_prediction temperature humidity wind_speed
                         pressure latitude longitude) w))
              "v2.1_enhanced") as ->.
  { unfold DisasterFull.predict_disaster, run, bind, ret.
    destruct (_enhanced_disaster_prediction _ _ _ _ _ _ w). reflexivity. }
  cbn [DisasterFull.predictions DisasterFull.confidence_level].
  pose proof (assembled_severity_probability temperature humidity wind_speed
                pressure latitude longitude w) as Hsp.
  pose proof (assembler_nonempty temperature humidity wind_speed
                pressure latitude longitude w) as Hne.
  set (predictions := run (_enhanced_disaster_prediction temperature humidity
                             wind_speed pressure latitude longitude) w) in *.
  split.
  - intros (entry & Hin & Hsev).
    apply (proj1 (confidence_cases predictions)).
    exists entry. split; [exact Hin|].
    destruct (Hsp entry Hin) as [Hc _]. specialize (Hc Hsev). lra.
  - intros Hlow entry Hin.
    apply (proj2 (Hsp entry Hin)).
    rewrite (confidence_nonempty predictions Hne) in Hlow.
    destruct (0.6 <=? max_of (map probability predictions)) eqn:T6;
      [discriminate Hlow|].
    destruct (0.3 <=? max_of (map probability predictions)) eqn:T3;
      [discriminate Hlow|].
    reflect_tests.
    apply Qnot_le_lt. intro Hge.
    assert (0.3 <= max_of (map probability predictions)) as Hmax.
    { apply (max_prob_ge 0.3 predictions Hne). exists entry. auto. }
    lra.
Qed.

(** ** The overall score of the two endpoints *)

Lemma floored_round_floor (x : Q) : 1.5 <= round (Qmax x 1.5) 1.
Proof.
  apply (round_above 1.5); [vm_compute; reflexivity | apply Q.le_max_r].
Qed.

(** X6: the scores of both aggregate endpoints never drop below the
    baseline 1.5. *)
Theorem risk_score_at_least_baseline
    (lat lon : Q) (fetched : option WeatherData) (w : World) :
  1.5 <= PostDisaster.risk_score
           (run (PostDisaster.predict_disaster_from_location lat lon fetched) w) /\
  1.5 <= DisasterRisk.risk_score
           (run (DisasterRisk.get_disaster_risk lat lon fetched) w).
Proof.
  pose proof (post_run lat lon fetched w) as Hp.
  pose proof (get_run lat lon fetched w) as Hg.
  destruct (read_weather fetched) as [[[[temperature humidity] wind_speed] pressure] visibility].
  cbv zeta in *. rewrite Hp, Hg.
  cbn [PostDisaster.risk_score DisasterRisk.risk_score].
  pose proof (assembler_nonempty temperature humidity wind_speed pressure lat lon w) as Hne.
  set (predictions := run (_enhanced_disaster_prediction temperature humidity
                             wind_speed pressure lat lon) w) in *.
  split.
  - rewrite (post_score_nonempty predictions humidity visibility Hne).
    pose proof (floored_round_floor (combined_risk predictions)) as Hr.
    destruct (modifiers_nonneg humidity visibility) as [Hh Hv].
    apply (round_above 1.5); [vm_compute; reflexivity|].
    apply Q.min_glb; [lra | discriminate].
  - rewrite (get_score_nonempty predictions temperature humidity visibility Hne).
    apply floored_round_floor.
Qed.

(** X7: on the same readings and world the POST score is never below
    the GET score, and the two agree when neither the humidity nor the
    visibility modifier applies. *)
Theorem post_score_dominates_get_score
    (lat lon : Q) (fetched : option WeatherData) (w : World) :
  let '(temperature, humidity, wind_speed, pressure, visibility) :=
    read_weather fetched in
  let post := run (PostDisaster.predict_disaster_from_location lat lon fetched) w in
  let get := run (DisasterRisk.get_disaster_risk lat lon fetched) w in
  DisasterRisk.risk_score get <= PostDisaster.risk_score post /\
  (humidity <= 80 -> 5 <= visibility ->
   PostDisaster.risk_score post == DisasterRisk.risk_score get).
Proof.
  pose proof (post_run lat lon fetched w) as Hp.
  pose proof (get_run lat lon fetched w) as Hg.
  destruct (read_weather fetched) as [[[[temperature humidity] wind_speed] pressure] visibility].
  cbv zeta in *. rewrite Hp, Hg.
  cbn [PostDisaster.risk_score DisasterRisk.risk_score].
  pose proof (assembler_nonempty temperature humidity wind_speed pressure lat lon w) as Hne.
  pose proof (assembler_probabilities temperature humidity wind_speed pressure lat lon w)
    as Hunit.
  set (predictions := run (_enhanced_disaster_prediction temperature humidity
                             wind_speed pressure lat lon) w) in *.
  rewrite (post_score_nonempty predictions humidity visibility Hne).
  rewrite (get_score_nonempty predictions temperature humidity visibility Hne).
  destruct (floored_round_range predictions Hne Hunit) as [_ Hr10].
  set (R := round (Qmax (combined_risk predictions) 1.5) 1) in *.
  assert (round R 1 == R) as Hidem by (apply round_idem).
  split.
  - destruct (modifiers_nonneg humidity visibility) as [Hh Hv].
    rewrite <- Hidem at 1. apply round_mono.
    apply Q.min_glb; [lra | exact Hr10].
  - intros Hhum Hvis.
    unfold humidity_modifier, visibility_modifier.
    assert ((90 <? humidity) = false) as -> by (apply Qltb_ge; lra).
    assert ((80 <? humidity) = false) as -> by (apply Qltb_ge; lra).
    assert ((visibility <? 5) = false) as -> by (apply Qltb_ge; lra).
    rewrite <- Hidem at 2.
    apply round_Proper; [|reflexivity].
    rewrite Q.min_l; [ring | lra].
Qed.

(** ** The earthquake score of the GET endpoint *)

(** X8: the earthquake score of GET /predict/disaster-risk does not
    depend on the coordinates or on the weather, only on the random
    source; for draws of the unit interval it lies in [1, 3]. *)
Theorem get_earthquake_score_ignores_location :
  (forall (lat lon lat' lon' : Q) (fetched fetched' : option WeatherData) (w : World),
      DisasterRisk.earthquake_risk
        (run (DisasterRisk.get_disaster_risk lat lon fetched) w)
      = DisasterRisk.earthquake_risk
          (run (DisasterRisk.get_disaster_risk lat' lon' fetched') w)) /\
  (forall (lat lon : Q) (fetched : option WeatherData) (w : World),
      unit_draws w ->
      1 <= DisasterRisk.earthquake_risk
             (run (DisasterRisk.get_disaster_risk lat lon fetched) w) <= 3).
Proof.
  assert (forall lat lon fetched w,
             DisasterRisk.earthquake_risk
               (run (DisasterRisk.get_disaster_risk lat lon fetched) w)
             = round (1.0 + (3.0 - 1.0) * rng w 5%nat) 1) as Hq.
  { intros lat lon fetched w. pose proof (get_run lat lon fetched w) as Hg.
    destruct (read_weather fetched) as [[[[? ?] ?] ?] ?].
    cbv zeta in Hg. rewrite Hg. reflexivity. }
  split.
  - intros. rewrite !Hq. reflexivity.
  - intros lat lon fetched w Hu. rewrite Hq.
    destruct (uniform_range 1.0 3.0 (rng w 5%nat)) as [Hlo Hhi];
      [discriminate | apply Hu |].
    split.
    + apply (round_lb 1). change (inject_Z 1) with 1. lra.
    + apply (round_ub 3). change (inject_Z 3) with 3. lra.
Qed.

Lemma get_earthquake_score_ignores_location_witness :
  1 <= DisasterRisk.earthquake_risk
         (run (DisasterRisk.get_disaster_risk 40 140 None)
            (constant_world 1 (1 # 2))) <= 3.
Proof.
  apply (proj2 get_earthquake_score_ignores_location).
  apply constant_world_unit_draws. split; discriminate.
Defined.

(** ** Earthquake inside the zones *)

Lemma zone_risk_floor (zone : Zone) : In zone risk_zones -> 0.25 <= risk zone.
Proof.
  intro Hin. cbn in Hin.
  repeat (destruct Hin as [<- | Hin]; [discriminate|]). contradiction.
Qed.

Lemma inside_zone_base_risk (lat lon : Q) :
  in_some_zone lat lon = true -> 0.25 <= earthquake_base_risk lat lon <= 0.5.
Proof.
  intro Hin. apply existsb_exists in Hin as (zone & Hz & Hc).
  destruct (zone_loop_max lat lon risk_zones 0.02) as (_ & Hub & Hex).
  split.
  - eapply Qle_trans; [apply zone_risk_floor, Hz | exact (Hub zone Hz Hc)].
  - destruct Hex as [E | (z & Hin & _ & E)];
      change (fold_left _ risk_zones 0.02) with (earthquake_base_risk lat lon) in E;
      rewrite E; [discriminate|].
    cbn in Hin.
    repeat (destruct Hin as [<- | Hin]; [discriminate|]). contradiction.
Qed.

Lemma inside_zone_risk_bound (lat lon : Q) (w : World) :
  unit_draws w -> in_some_zone lat lon = true ->
  0.155 <= run (_calculate_earthquake_risk lat lon) w.
Proof.
  intros Hu Hin. rewrite earthquake_run.
  destruct (inside_zone_base_risk lat lon Hin) as [Hb Hb'].
  pose proof (Hu 0%nat) as [H0 H0']. pose proof (Hu 1%nat) as [H1 H1'].
  eapply Qle_trans; [|apply Q.le_max_r].
  apply Q.min_glb; [discriminate|].
  set (b := earthquake_base_risk lat lon) in *.
  set (u := rng w 0%nat) in *. set (v := rng w 1%nat) in *.
  assert (0 <= (b - 0.25) * (0.7 + (1.3 - 0.7) * u)) as Hprod.
  { apply Qmult_le_0_compat; lra. }
  lra.
Qed.

Lemma outside_all_zones (lat lon : Q) :
  in_some_zone lat lon = false ->
  forall zone, In zone risk_zones -> in_zone lat lon zone = false.
Proof.
  intros Hout zone Hin.
  destruct (in_zone lat lon zone) eqn:E; [|reflexivity].
  assert (in_some_zone lat lon = true) as Habs
    by (apply existsb_exists; exists zone; auto).
  congruence.
Qed.

(** X9: for draws of the unit interval, earthquake is in the assembled
    list exactly when the coordinate lies in one of the zone
    rectangles; inside a zone its risk is at least
    0.25 * 0.7 - 0.02 = 0.155. *)
Theorem earthquake_listed_iff_in_zone
    (temp humidity wind pressure lat lon : Q) (w : World) :
  unit_draws w ->
  has_type "earthquake"
    (run (_enhanced_disaster_prediction temp humidity wind pressure lat lon) w)
  = in_some_zone lat lon /\
  (in_some_zone lat lon = true ->
   0.155 <= snd (run (hazard_risks temp humidity wind pressure lat lon) w)).
Proof.
  intro Hu.
  assert (unit_draws (advance (advance (advance w)))) as Hu3
    by (repeat apply advance_unit_draws; exact Hu).
  pose proof (hazard_risks_earthquake temp humidity wind pressure lat lon w) as Heq.
  pose proof (assembler_run temp humidity wind pressure lat lon w) as Hrun.
  destruct (run (hazard_risks temp humidity wind pressure lat lon) w)
    as [[[wf fl] st] eq].
  cbv zeta in Hrun. rewrite Hrun. clear Hrun. cbn [snd] in *.
  destruct (in_some_zone lat lon) eqn:Hz.
  - pose proof (inside_zone_risk_bound lat lon _ Hu3 Hz) as Hb.
    rewrite <- Heq in Hb.
    split; [|intros _; exact Hb].
    assert ((0.05 <? eq) = true) as -> by (apply Qltb_lt; lra).
    destruct (0.1 <? wf); destruct (0.1 <? fl); destruct (0.15 <? st);
      reflexivity.
  - pose proof (outside_zones_risk_bound lat lon _ Hu3 (outside_all_zones lat lon Hz))
      as Hb.
    rewrite <- Heq in Hb.
    split; [|intro H; discriminate H].
    assert ((0.05 <? eq) = false) as -> by (apply Qltb_ge; lra).
    destruct (0.1 <? wf); destruct (0.1 <? fl); destruct (0.15 <? st);
      reflexivity.
Qed.

Lemma earthquake_listed_iff_in_zone_witness :
  has_type "earthquake"
    (run (_enhanced_disaster_prediction 25 60 10 1013 40 140)
       (constant_world 1 (1 # 2)))
  = in_some_zone 40 140.
Proof.
  apply (earthquake_listed_iff_in_zone 25 60 10 1013 40 140
           (constant_world 1 (1 # 2))).
  apply constant_world_unit_draws. split; discriminate.
Defined.

(** ** Monotonicity of the weather scorers *)

(** Reduces a comparison of two clamped risks to their unclamped
    sums, with every multiplier test decided. *)
Ltac compare_risks :=
  run_monad;
  apply Q.max_le_compat_l; apply Q.min_le_compat_l;
  repeat match goal with
         | |- context [if ?b then _ else _] => destruct b
         end;
  div_consts.

Section Monotone.

Variable w : World.

(** X10: with the same clock and draws, the wildfire risk does not
    decrease when the temperature rises, when the humidity falls or when
    the wind rises. *)
Theorem wildfire_risk_monotone (temp humidity wind lat : Q) :
  (forall temp', temp <= temp' ->
      run (_calculate_wildfire_risk temp humidity wind lat) w
      <= run (_calculate_wildfire_risk temp' humidity wind lat) w) /\
  (forall humidity', humidity' <= humidity ->
      run (_calculate_wildfire_risk temp humidity wind lat) w
      <= run (_calculate_wildfire_risk temp humidity' wind lat) w) /\
  (forall wind', wind <= wind' ->
      run (_calculate_wildfire_risk temp humidity wind lat) w
      <= run (_calculate_wildfire_risk temp humidity wind' lat) w).
Proof.
  split; [|split].
  - intros temp' H.
    assert (Qmax 0 ((temp - 20) / 30) <= Qmax 0 ((temp' - 20) / 30)) as Hf
      by (apply Q.max_le_compat_l; div_consts; lra).
    compare_risks; lra.
  - intros humidity' H.
    assert (Qmax 0 ((70 - humidity) / 70) <= Qmax 0 ((70 - humidity') / 70)) as Hf
      by (apply Q.max_le_compat_l; div_consts; lra).
    compare_risks; lra.
  - intros wind' H.
    assert (Qmin 1 (wind / 25) <= Qmin 1 (wind' / 25)) as Hf
      by (apply Q.min_le_compat_l; div_consts; lra).
    compare_risks; lra.
Qed.

(** X11: with the same clock and draws, the flood risk does not
    decrease when the humidity rises or when the pressure falls. *)
Theorem flood_risk_monotone (humidity pressure temp lat : Q) :
  (forall humidity', humidity <= humidity' ->
      run (_calculate_flood_risk humidity pressure temp lat) w
      <= run (_calculate_flood_risk humidity' pressure temp lat) w) /\
  (forall pressure', pressure' <= pressure ->
      run (_calculate_flood_risk humidity pressure temp lat) w
      <= run (_calculate_flood_risk humidity pressure' temp lat) w).
Proof.
  split.
  - intros humidity' H.
    assert (Qmin 1 ((humidity - 50) / 40) <= Qmin 1 ((humidity' - 50) / 40)) as Hf
      by (apply Q.min_le_compat_l; div_consts; lra).
    compare_risks; lra.
  - intros pressure' H.
    assert (Qmax 0 ((1020 - pressure) / 20) <= Qmax 0 ((1020 - pressure') / 20)) as Hf
      by (apply Q.max_le_compat_l; div_consts; lra).
    compare_risks; lra.
Qed.

(** X12: with the same draw, the storm risk does not decrease when the
    wind rises, when the pressure falls or when the humidity rises. *)
Theorem storm_risk_monotone (wind pressure humidity temp : Q) :
  (forall wind', wind <= wind' ->
      run (_calculate_storm_risk wind pressure humidity temp) w
      <= run (_calculate_storm_risk wind' pressure humidity temp) w) /\
  (forall pressure', pressure' <= pressure ->
      run (_calculate_storm_risk wind pressure humidity temp) w
      <= run (_calculate_storm_risk wind pressure' humidity temp) w) /\
  (forall humidity', humidity <= humidity' ->
      run (_calculate_storm_risk wind pressure humidity temp) w
      <= run (_calculate_storm_risk wind pressure humidity' temp) w).
Proof.
  split; [|split].
  - intros wind' H.
    assert (Qmin 1 (wind / 30) <= Qmin 1 (wind' / 30)) as Hf
      by (apply Q.min_le_compat_l; div_consts; lra).
    compare_risks; lra.
  - intros pressure' H.
    assert (Qmax 0 ((1020 - pressure) / 25) <= Qmax 0 ((1020 - pressure') / 25)) as Hf
      by (apply Q.max_le_compat_l; div_consts; lra).
    compare_risks; lra.
  - intros humidity' H.
    assert (Qmin 1 ((humidity - 60) / 30) <= Qmin 1 ((humidity' - 60) / 30)) as Hf
      by (apply Q.min_le_compat_l; div_consts; lra).
    compare_risks; lra.
Qed.

End Monotone.

(** ** Missing keys of the weather answer *)

(** X13: in an answer that lacks the main block or the visibility, the
    readings are those of a failed fetch; an answer that lacks the wind
    block or its speed is read as 36 km/h (the default 10 is converted
    like a measured speed), not as the 10 km/h of a failed fetch. *)
Theorem missing_keys_fall_back (weather_data : WeatherData) :
  let '(temperature, humidity, wind_speed, pressure, visibility) :=
    read_weather (Some weather_data) in
  let '(temperature0, humidity0, wind_speed0, pressure0, visibility0) :=
    read_weather None in
  (wd_main weather_data = None ->
   temperature = temperature0 /\ humidity = humidity0 /\ pressure = pressure0) /\
  (wd_visibility weather_data = None -> visibility == visibility0) /\
  (wd_wind_speed weather_data = None \/ wd_wind_speed weather_data = Some None ->
   wind_speed == 36 /\ ~ wind_speed == wind_speed0).
Proof.
  unfold read_weather. split; [|split].
  - intros ->. cbn. auto.
  - intros ->. reflexivity.
  - intros [-> | ->]; cbn [dict_get]; split;
      first [reflexivity | vm_compute; discriminate].
Qed.

(** ** The rule-based calculator *)

Ltac split_rule :=
  match goal with
  | |- context [if ?b then _ else _] =>
      let E := fresh "R" in destruct b eqn:E; cbv beta iota
  end.

Ltac reflect_rules :=
  repeat match goal with
  | H : (_ || _) = true |- _ => apply orb_true_iff in H
  | H : (_ || _) = false |- _ => apply orb_false_iff in H; destruct H
  end;
  reflect_tests.

Lemma tally_sub_scores (temp humidity wind_speed pressure : Q) :
  let '(risk_score, storm_risk, fire_risk, flood_risk) :=
    SimpleRisk.tally temp humidity wind_speed pressure in
  3 <= Qmin (round risk_score 1) 10 <= 10 /\
  among (Qmin (round storm_risk 1) 10) [2; 4; 6; 8; 10] = true /\
  among (Qmin (round fire_risk 1) 10) [2; 4; 7] = true /\
  among (Qmin (round flood_risk 1) 10) [2; 4; 6] = true /\
  (Qmin (round fire_risk 1) 10 == 2 \/ Qmin (round flood_risk 1) 10 == 2).
Proof.
  unfold SimpleRisk.tally.
  destruct (humidity <? 30) eqn:H30; destruct (humidity <? 50) eqn:H50;
    destruct (80 <? humidity) eqn:H80; destruct (70 <? humidity) eqn:H70;
    try (exfalso; reflect_tests; lra);
    clear H30 H50 H80 H70;
    repeat match goal with
           | |- context [if ?b then _ else _] => destruct b
           end;
    cbv beta iota;
    (split; [split; vm_compute; discriminate|]);
    (split; [vm_compute; reflexivity|]);
    (split; [vm_compute; reflexivity|]);
    (split; [vm_compute; reflexivity|]);
    first [left; vm_compute; reflexivity | right; vm_compute; reflexivity].
Qed.

(** X14: the rule-based calculator reports a score between 3 and 10, a
    storm score among 2, 4, 6, 8, 10, a fire score among 2, 4, 7, a
    flood score among 2, 4, 6, and never raises the fire and the flood
    score together. *)
Theorem rule_based_sub_scores (weather_data : WeatherData) (w : World) :
  let r := run (SimpleRisk.calculate_risk weather_data) w in
  3 <= SimpleRisk.risk_score r <= 10 /\
  among (SimpleRisk.storm_risk r) [2; 4; 6; 8; 10] = true /\
  among (SimpleRisk.fire_risk r) [2; 4; 7] = true /\
  among (SimpleRisk.flood_risk r) [2; 4; 6] = true /\
  (SimpleRisk.fire_risk r == 2 \/ SimpleRisk.flood_risk r == 2).
Proof.
  pose proof (simple_run weather_data w) as Hs. cbv zeta in Hs.
  set (main := dict_get (wd_main weather_data) empty_main) in *.
  pose proof (tally_sub_scores (dict_get (main_temp main) 25)
                (dict_get (main_humidity main) 60)
                (dict_get (dict_get (wd_wind_speed weather_data) None) 10)
                (dict_get (main_pressure main) 1013)) as Ht.
  destruct (SimpleRisk.tally _ _ _ _) as [[[risk_score storm_risk] fire_risk] flood_risk].
  cbv zeta. rewrite Hs.
  cbn [SimpleRisk.risk_score SimpleRisk.storm_risk SimpleRisk.fire_risk
       SimpleRisk.flood_risk].
  exact Ht.
Qed.

Lemma tally_calm (temp humidity wind_speed pressure : Q) :
  let '(risk_score, _, _, _) :=
    SimpleRisk.tally temp humidity wind_speed pressure in
  (risk_score == 3 /\ calm_readings temp humidity wind_speed pressure) \/
  (4 <= risk_score /\ ~ calm_readings temp humidity wind_speed pressure).
Proof.
  unfold SimpleRisk.tally, calm_readings.
  repeat split_rule;
    reflect_rules;
    first [ left; split; [vm_compute; reflexivity | repeat split; lra]
          | right; split; [vm_compute; discriminate
                          | intros ((? & ?) & ? & (? & ?) & ?);
                            repeat match goal with
                                   | H : _ \/ _ |- _ => destruct H
                                   end; reflect_tests; lra] ].
Qed.

(** X15: the rule-based calculator answers low exactly when no rule
    fires: temperature in [10, 30], wind at most 15, humidity in
    [30, 80] and pressure at least 1000 (each reading with its default
    when the key is missing); any rule that fires lifts the answer to
    moderate or above. *)
Theorem rule_based_low_iff_calm (weather_data : WeatherData) (w : World) :
  let main := dict_get (wd_main weather_data) empty_main in
  let temp := dict_get (main_temp main) 25 in
  let humidity := dict_get (main_humidity main) 60 in
  let wind_speed := dict_get (dict_get (wd_wind_speed weather_data) None) 10 in
  let pressure := dict_get (main_pressure main) 1013 in
  SimpleRisk.overall_risk (run (SimpleRisk.calculate_risk weather_data) w) = "low"
  <-> calm_readings temp humidity wind_speed pressure.
Proof.
  cbv zeta.
  pose proof (simple_run weather_data w) as Hs. cbv zeta in Hs.
  set (main := dict_get (wd_main weather_data) empty_main) in *.
  pose proof (tally_calm (dict_get (main_temp main) 25)
                (dict_get (main_humidity main) 60)
                (dict_get (dict_get (wd_wind_speed weather_data) None) 10)
                (dict_get (main_pressure main) 1013)) as Ht.
  destruct (SimpleRisk.tally _ _ _ _) as [[[risk_score storm_risk] fire_risk] flood_risk].
  rewrite Hs. cbn [SimpleRisk.overall_risk].
  destruct Ht as [[E Hcalm] | [Hge Hnot]].
  - assert ((8 <=? risk_score) = false) as -> by (apply Qleb_gt; lra).
    assert ((6 <=? risk_score) = false) as -> by (apply Qleb_gt; lra).
    assert ((4 <=? risk_score) = false) as -> by (apply Qleb_gt; lra).
    split; [intros _; exact Hcalm | reflexivity].
  - assert ((4 <=? risk_score) = true) as H4 by (apply Qleb_le; exact Hge).
    split; [|intro Hc; contradiction].
    rewrite H4. destruct (8 <=? risk_score); destruct (6 <=? risk_score);
      intro H; discriminate H.
Qed.

(** ** The risk-assessment route *)

(** X16: GET /predict/risk-assessment never answers with an
    assessment: it hands [predict_disaster] a dictionary, whose
    attribute access fails, so every request ends in status 500; called
    with a request model, [predict_disaster] always returns, with a
    non-empty list and its confidence level. *)
Theorem risk_assessment_always_fails :
  (forall (lat lon : Q) (w : World),
      run (RiskAssessment.get_risk_assessment lat lon) w
      = RiskAssessment.HTTPException 500) /\
  (forall (m : RiskAssessment.PredictionInput) (w : World),
      exists r,
        run (RiskAssessment.predict_disaster (RiskAssessment.Model m)) w
        = RiskAssessment.Returned r /\
        DisasterFull.predictions r <> [] /\
        DisasterFull.confidence_level r
        = _calculate_overall_confidence (DisasterFull.predictions r)).
Proof.
  split.
  - intros. reflexivity.
  - intros m w.
    unfold RiskAssessment.predict_disaster, RiskAssessment.attribute,
      DisasterFull.predict_disaster, run, bind, ret.
    pose proof (assembler_nonempty (RiskAssessment.temperature m)
                  (RiskAssessment.humidity m) (RiskAssessment.wind_speed m)
                  (RiskAssessment.pressure m) (RiskAssessment.latitude m)
                  (RiskAssessment.longitude m) w) as Hne.
    unfold run in Hne.
    destruct (_enhanced_disaster_prediction _ _ _ _ _ _ w) as [predictions w'].
    cbn [fst] in *.
    eexists. split; [reflexivity|]. split; [exact Hne | reflexivity].
Qed.
